(** * crawl_gutendex: a shallow embedding of the Gutendex crawler

    The development follows [crawl_gutendex.py]:
    - [fetch_books]   (lines 8-23)   the catalogue request,
    - [roman_numeral] (lines 25-46)  the numbering of chapter folders,
    - [download_book] (lines 48-126) the per-book pipeline.

    A Python [str] is kept as the [string] of its UTF-8 bytes, the way
    a literal of this file is read and the way the text and the names
    reach the disk.  The characters the program looks for (the slash,
    the reserved characters, the letters of the patterns and of the
    keys) are ASCII, and an ASCII byte of a UTF-8 string is always a
    character of its own, so replacing, filtering and prefix tests go
    byte by byte; slicing counts characters ([Py.take]).  Python
    integers are [Z], list indices are [nat].  The network is an oracle
    handed to the functions, the file system and the standard output
    are threaded as an explicit state. *)

From Stdlib Require Import ZArith Ascii String List Lia Bool.
From stdpp Require Import gmap strings list fin_maps pretty.
Import ListNotations.

Local Open Scope Z_scope.

(** ** Exceptions and outcomes *)

(** The exceptions the three functions can meet.  [RequestException]
    stands for the whole [requests.exceptions.RequestException]
    hierarchy (connection errors, timeouts, [HTTPError]); the [except]
    clauses of the program catch exactly that class. *)
Inductive exn : Type :=
| IndexError
| KeyError (key : string)
| ValueError (msg : string)
| RequestException (msg : string).

(** What running a piece of code gives: a value, an exception that
    propagates, or the exhaustion of the fuel given to a [while]. *)
Inductive outcome (A : Type) : Type :=
| Return (a : A)
| Raise (e : exn)
| OutOfFuel.

Arguments Return {A} a.
Arguments Raise {A} e.
Arguments OutOfFuel {A}.

Module Outcome.

Definition bind {A B : Type} (m : outcome A) (k : A -> outcome B) : outcome B :=
  match m with
  | Return a => k a
  | Raise e => Raise e
  | OutOfFuel => OutOfFuel
  end.

End Outcome.

Declare Scope outcome_scope.
Delimit Scope outcome_scope with outcome.
Notation "x <- m ;; k" := (Outcome.bind m (fun x => k))
  (at level 100, m at next level, right associativity) : outcome_scope.

(** [l[i]] for a non-negative index: [IndexError] past the end. *)
Definition getitem {A : Type} (l : list A) (i : nat) : outcome A :=
  match l !! i with
  | Some x => Return x
  | None => Raise IndexError
  end.

(** ** roman_numeral (lines 25-46) *)

Module Roman.

Definition val : list Z :=
  [1000; 900; 500; 400;
   100; 90; 50; 40;
   10; 9; 5; 4;
   1].

Definition syms : list string :=
  ["M"; "CM"; "D"; "CD";
   "C"; "XC"; "L"; "XL";
   "X"; "IX"; "V"; "IV";
   "I"].

(** The loop variables [n], [i] and [roman_num]. *)
Record state : Type := State { st_n : Z; st_i : nat; st_roman : string }.

(** Lines 42-44, [for _ in range(k)]: the bound [k] was computed once,
    [syms[i]] and [val[i]] are read in every round. *)
Fixpoint for_range (k : nat) (st : state) : outcome state :=
  match k with
  | O => Return st
  | S k' =>
      (s <- getitem syms (st_i st) ;;
       v <- getitem val (st_i st) ;;
       for_range k' (State (st_n st - v) (st_i st) (st_roman st +:+ s)))%outcome
  end.

(** Lines 41-45, [while n > 0].  [n // val[i]] is Python's floor
    division, which is [Z.div]; no entry of [val] is zero.  Each unit of
    fuel pays for one evaluation of the loop condition. *)
Fixpoint while_loop (fuel : nat) (st : state) : outcome state :=
  match fuel with
  | O => OutOfFuel
  | S fuel' =>
      if 0 <? st_n st then
        (v <- getitem val (st_i st) ;;
         st' <- for_range (Z.to_nat (st_n st / v)) st ;;
         while_loop fuel' (State (st_n st') (S (st_i st')) (st_roman st')))%outcome
      else Return st
  end.

(** The loop from its initial state, lines 39-41. *)
Definition run (fuel : nat) (n : Z) : outcome state :=
  while_loop fuel (State n 0 "").

(** The fuel the callers give: one evaluation of the condition more
    than the table has entries. *)
Definition enough : nat := S (length val).

Definition roman_numeral (n : Z) : outcome string :=
  (st <- run enough n ;; Return (st_roman st))%outcome.

(** The string [roman_numeral] returns, and the empty string should it
    ever fail; [roman_numeral_total] below shows it never does. *)
Definition roman (n : Z) : string :=
  match roman_numeral n with
  | Return s => s
  | _ => ""
  end.

(** *** A standard reader of Roman numerals

    This follows the usual left-to-right rule and is not part of the
    program: a symbol smaller than its right neighbour is subtracted,
    any other is added. *)
Definition symbol_value (c : ascii) : option Z :=
  match c with
  | "I" => Some 1
  | "V" => Some 5
  | "X" => Some 10
  | "L" => Some 50
  | "C" => Some 100
  | "D" => Some 500
  | "M" => Some 1000
  | _ => None
  end%char.

Fixpoint parse_values (s : string) : option (list Z) :=
  match s with
  | EmptyString => Some []
  | String c s' =>
      match symbol_value c, parse_values s' with
      | Some v, Some vs => Some (v :: vs)
      | _, _ => None
      end
  end.

Fixpoint sum_values (vs : list Z) : Z :=
  match vs with
  | [] => 0
  | v :: rest =>
      match rest with
      | w :: _ => if v <? w then sum_values rest - v else v + sum_values rest
      | [] => v
      end
  end.

Definition from_roman (s : string) : option Z :=
  match parse_values s with
  | Some vs => Some (sum_values vs)
  | None => None
  end.

(** Membership in the alphabet M, D, C, L, X, V, I. *)
Definition roman_alphabet (c : ascii) : bool :=
  match c with
  | "M" | "D" | "C" | "L" | "X" | "V" | "I" => true
  | _ => false
  end%char.

Fixpoint string_forallb (p : ascii -> bool) (s : string) : bool :=
  match s with
  | EmptyString => true
  | String c s' => p c && string_forallb p s'
  end.

(** The round trip at one number, as a boolean. *)
Definition round_trip (n : Z) : bool :=
  match roman_numeral n with
  | Return s =>
      string_forallb roman_alphabet s &&
      match from_roman s with
      | Some m => m =? n
      | None => false
      end
  | _ => false
  end.

End Roman.

(** ** Python strings and paths *)

Module Py.

(** [s.replace(a, b)] for ASCII characters [a] and [b]. *)
Fixpoint replace_char (a b : ascii) (s : string) : string :=
  match s with
  | EmptyString => EmptyString
  | String c s' => String (if Ascii.eqb c a then b else c) (replace_char a b s')
  end.

(** A byte of the form 10xxxxxx: in UTF-8 it continues the character
    begun by the last byte that is not of this form. *)
Definition is_continuation (c : ascii) : bool :=
  match c with
  | Ascii _ _ _ _ _ _ b6 b7 => b7 && negb b6
  end.

(** [s[:k]], the first [k] characters: the bytes before the one that
    begins character [k+1] ([take_encode] relates it to the first [k]
    code points). *)
Fixpoint take (k : nat) (s : string) : string :=
  match s with
  | EmptyString => EmptyString
  | String c s' =>
      if is_continuation c then String c (take k s')
      else
        match k with
        | O => EmptyString
        | S k' => String c (take k' s')
        end
  end.

(** [len(s)], the number of characters. *)
Fixpoint len (s : string) : nat :=
  match s with
  | EmptyString => O
  | String c s' => if is_continuation c then len s' else S (len s')
  end.

(** [c in set] for a byte [c] and a set of ASCII characters: a byte of
    a longer character is never in such a set. *)
Fixpoint char_in (c : ascii) (set : string) : bool :=
  match set with
  | EmptyString => false
  | String d set' => Ascii.eqb c d || char_in c set'
  end.

(** [''.join(c for c in s if p(c))]. *)
Fixpoint filter (p : ascii -> bool) (s : string) : string :=
  match s with
  | EmptyString => EmptyString
  | String c s' => if p c then String c (filter p s') else filter p s'
  end.

(** [s.startswith(p)]. *)
Fixpoint startswith (p s : string) : bool :=
  match p, s with
  | EmptyString, _ => true
  | String a p', String b s' => Ascii.eqb a b && startswith p' s'
  | String _ _, EmptyString => false
  end.

(** [s.endswith(c)] for an ASCII character [c]. *)
Fixpoint endswith_char (c : ascii) (s : string) : bool :=
  match s with
  | EmptyString => false
  | String d EmptyString => Ascii.eqb d c
  | String _ s' => endswith_char c s'
  end.

(** [d.get(key)] on a dictionary kept as the list of its items, in
    insertion order. *)
Fixpoint dict_get {V : Type} (d : list (string * V)) (key : string) : option V :=
  match d with
  | [] => None
  | (k, v) :: d' => if String.eqb k key then Some v else dict_get d' key
  end.

(** [d.get(key, dflt)] for an optional field of a record. *)
Definition get_default {V : Type} (field : option V) (dflt : V) : V :=
  match field with
  | Some v => v
  | None => dflt
  end.

(** Truth value of the result of [d.get(key)] for string values:
    [None] and the empty string are falsy. *)
Definition truthy (v : option string) : bool :=
  match v with
  | Some (String _ _) => true
  | _ => false
  end.

(** [a or b]. *)
Definition or_else (a b : option string) : option string :=
  if truthy a then a else b.

(** [os.path.join(a, b)] as [posixpath] defines it. *)
Definition path_join (a b : string) : string :=
  if startswith "/" b then b
  else if orb (String.eqb a "") (endswith_char "/" a) then a +:+ b
  else a +:+ "/" +:+ b.

(** The directories [os.makedirs(path)] makes sure exist: [path] and
    each prefix of it that stops before a separator. *)
Fixpoint ancestors (seen rest : string) : list string :=
  match rest with
  | EmptyString => [seen]
  | String c rest' =>
      if Ascii.eqb c "/" then
        match seen with
        | EmptyString => ancestors (String c EmptyString) rest'
        | _ => seen :: ancestors (seen +:+ String c EmptyString) rest'
        end
      else ancestors (seen +:+ String c EmptyString) rest'
  end.

End Py.

(** ** UTF-8, to read [Py.take] against code points *)

Module Utf8.

Definition byte (n : N) : ascii := ascii_of_N n.

(** The bytes of one code point. *)
Definition encode_point (cp : N) : string :=
  (if cp <? 128 then String (byte cp) EmptyString
   else if cp <? 2048 then
     String (byte (192 + cp / 64)) (String (byte (128 + cp mod 64)) EmptyString)
   else if cp <? 65536 then
     String (byte (224 + cp / 4096))
       (String (byte (128 + (cp / 64) mod 64))
          (String (byte (128 + cp mod 64)) EmptyString))
   else
     String (byte (240 + cp / 262144))
       (String (byte (128 + (cp / 4096) mod 64))
          (String (byte (128 + (cp / 64) mod 64))
             (String (byte (128 + cp mod 64)) EmptyString))))%N.

(** The bytes of a sequence of code points, that is of a [str]. *)
Fixpoint encode (points : list N) : string :=
  match points with
  | [] => EmptyString
  | cp :: rest => encode_point cp +:+ encode rest
  end.

(** The code points Unicode has. *)
Definition valid (cp : N) : Prop := (cp < 1114112)%N.

End Utf8.

(** ** Regular expressions: the fragment of [re] that line 78 uses *)

Module Re.

Inductive atom : Type :=
| Lit (c : ascii)   (* an ordinary or escaped character *)
| Space             (* \s *)
| Digit.            (* \d *)

Inductive item : Type :=
| One (a : atom)
| Many (a : atom).  (* a+ , greedy *)

Definition regex : Type := list item.

Definition backslash : ascii := "\"%char.

(** Characters with a special meaning outside this fragment. *)
Definition special : string := ".^$*?{}[]|()".

(** The atom an escape sequence denotes. *)
Definition escaped (c : ascii) : option atom :=
  if Ascii.eqb c backslash then Some (Lit backslash)
  else if Ascii.eqb c "s" then Some Space
  else if Ascii.eqb c "d" then Some Digit
  else None.

Definition flush (pending : option atom) : regex :=
  match pending with
  | Some a => [One a]
  | None => []
  end.

(** Reading a pattern left to right.  [pending] is the atom read last,
    which a following [+] would repeat; [esc] says that the previous
    character was an unescaped backslash.  Patterns outside the
    fragment give [None]. *)
Fixpoint compile_from (pending : option atom) (esc : bool) (p : string)
  : option regex :=
  match p with
  | EmptyString => if esc then None else Some (flush pending)
  | String c p' =>
      if esc then
        match escaped c with
        | Some a => compile_from (Some a) false p'
        | None => None
        end
      else if Ascii.eqb c "+" then
        match pending with
        | Some a => option_map (cons (Many a)) (compile_from None false p')
        | None => None
        end
      else if Ascii.eqb c backslash then
        option_map (app (flush pending)) (compile_from None true p')
      else if Py.char_in c special then None
      else option_map (app (flush pending)) (compile_from (Some (Lit c)) false p')
  end.

Definition compile (p : string) : option regex := compile_from None false p.

(** [\s] and [\d] on a [str] pattern, for the ASCII characters; the
    white space and the digits beyond ASCII take several bytes and are
    outside the fragment. *)
Definition is_space (c : ascii) : bool :=
  let k := nat_of_ascii c in
  orb (andb (Nat.leb 9 k) (Nat.leb k 13))
      (andb (Nat.leb 28 k) (Nat.leb k 32)).

Definition is_digit (c : ascii) : bool :=
  let k := nat_of_ascii c in andb (Nat.leb 48 k) (Nat.leb k 57).

Definition accepts (a : atom) (c : ascii) : bool :=
  match a with
  | Lit d => Ascii.eqb c d
  | Space => is_space c
  | Digit => is_digit c
  end.

(** Length of the match of [r] at the start of [s], if there is one:
    the backtracking search, a repetition taking as much as it can. *)
Fixpoint match_here (r : regex) : string -> option nat :=
  match r with
  | [] => fun _ => Some O
  | One a :: r' => fun s =>
      match s with
      | String c s' => if accepts a c then option_map S (match_here r' s') else None
      | EmptyString => None
      end
  | Many a :: r' =>
      fix many (s : string) : option nat :=
        match s with
        | String c s' =>
            if accepts a c then
              match many s' with
              | Some k => Some (S k)
              | None => option_map S (match_here r' s')
              end
            else None
        | EmptyString => None
        end
  end.

(** [re.split]: the text between the successive non-overlapping
    matches, found left to right.  [skip] counts the characters of the
    current match still to pass over, [cur] is the segment being
    collected.  Every regex [compile] gives for a non-empty pattern
    matches at least one character; an empty match does not split. *)
Fixpoint split_from (r : regex) (s : string) (skip : nat) (cur : string)
  : list string :=
  match s with
  | EmptyString => [cur]
  | String c s' =>
      match skip with
      | S k => split_from r s' k cur
      | O =>
          match match_here r s with
          | Some (S k) => cur :: split_from r s' k EmptyString
          | _ => split_from r s' O (cur +:+ String c EmptyString)
          end
      end
  end.

Definition split (r : regex) (s : string) : list string :=
  split_from r s O EmptyString.

(** [re.search(r, s) is not None], for the non-empty matches
    [split_from] cuts at. *)
Fixpoint search (r : regex) (s : string) : bool :=
  match match_here r s with
  | Some (S _) => true
  | _ =>
      match s with
      | String _ s' => search r s'
      | EmptyString => false
      end
  end.

End Re.

(** ** Records of the catalogue *)

(** A Gutendex book record with the fields the program reads, each of
    the type the catalogue gives it; a field is [None] when its key is
    absent.  [formats] keeps [dict.items()] order, which the
    enumeration of the images follows; the keys of a dictionary are
    pairwise distinct, which no statement below relies on. *)
Record author : Type := Author { a_name : option string }.

Record book : Type := Book {
  b_title : option string;
  b_authors : option (list author);
  b_languages : option (list string);
  b_formats : option (list (string * string))
}.

(** Values found under the keys of the catalogue's answer. *)
Inductive json_value : Type :=
| JNull
| JNumber (z : Z)
| JString (s : string)
| JBooks (records : list book).

(** ** The network *)

Record request : Type := Request {
  rq_url : string;
  rq_params : list (string * string)
}.

(** A response: [json] is what [response.json()] gives, the parsed
    object or the exception the method raises on a body that does not
    parse; [reason] is the text of the status line and [url] the
    address the response came from. *)
Record response : Type := Response {
  status_code : Z;
  text : string;
  content : string;
  json : outcome (list (string * json_value));
  reason : string;
  url : string
}.

(** What [requests.get] gives: a response, or a [RequestException]
    (connection error, timeout, invalid URL) carrying its message. *)
Inductive http_result : Type :=
| Failed (msg : string)
| Responded (r : response).

(** The network as an oracle: the result of the [k]-th request of the
    run when that request is [rq]. *)
Definition network : Type := nat -> request -> http_result.

(** ** The file system and the standard output *)

Record chapter_entry : Type := ChapterEntry {
  chapter_number : string;
  chapter_file_path : string   (* key local_file_path *)
}.

Record metadata : Type := Metadata {
  md_title : string;
  md_author : string;
  md_language : string;
  md_download_url : string;
  md_local_file_path : string;
  md_source : string;
  md_chapters : list chapter_entry;
  md_images : list string
}.

(** What a file holds.  [MetadataFile m] is the line
    [json.dumps(m, ensure_ascii=False) + "\n"]; the serialisation
    itself is not modelled. *)
Inductive file_content : Type :=
| TextFile (s : string)
| BinaryFile (b : string)
| MetadataFile (m : metadata).

(** Directory creation and file writes always succeed in this model:
    there is no [OSError]. *)
Record world : Type := World {
  dirs : gset string;
  files : gmap string file_content;
  stdout : list string;
  clock : nat   (* requests issued so far *)
}.

Module IO.

Definition io (A : Type) : Type := world -> outcome A * world.

Definition ret {A : Type} (a : A) : io A := fun w => (Return a, w).

Definition bind {A B : Type} (m : io A) (k : A -> io B) : io B :=
  fun w =>
    match m w with
    | (Return a, w') => k a w'
    | (Raise e, w') => (Raise e, w')
    | (OutOfFuel, w') => (OutOfFuel, w')
    end.

(** A computation without effects, run in place. *)
Definition lift {A : Type} (m : outcome A) : io A := fun w => (m, w).

(** [try: body except requests.exceptions.RequestException as e: handler]. *)
Definition try_except {A : Type} (body : io A) (handler : string -> io A) : io A :=
  fun w =>
    match body w with
    | (Raise (RequestException msg), w') => handler msg w'
    | r => r
    end.

Definition print (line : string) : io unit :=
  fun w => (Return tt, World (dirs w) (files w) (stdout w ++ [line]) (clock w)).

(** [os.makedirs(path, exist_ok=True)]. *)
Definition makedirs (path : string) : io unit :=
  fun w =>
    (Return tt,
     World (dirs w ∪ list_to_set (Py.ancestors "" path)) (files w) (stdout w) (clock w)).

(** [with open(path, mode) as f: f.write(data)]. *)
Definition write_file (path : string) (data : file_content) : io unit :=
  fun w => (Return tt, World (dirs w) (<[path := data]> (files w)) (stdout w) (clock w)).

(** [requests.get(url, params=params, timeout=10)]. *)
Definition requests_get (net : network) (rq : request) : io response :=
  fun w =>
    let w' := World (dirs w) (files w) (stdout w) (S (clock w)) in
    match net (clock w) rq with
    | Failed msg => (Raise (RequestException msg), w')
    | Responded r => (Return r, w')
    end.

(** [for idx, x in enumerate(l): body(idx, x)], counting from [idx]. *)
Fixpoint for_enumerate {A : Type} (body : nat -> A -> io unit) (idx : nat) (l : list A)
  : io unit :=
  match l with
  | [] => ret tt
  | x :: l' => bind (body idx x) (fun _ => for_enumerate body (S idx) l')
  end.

End IO.

Declare Scope io_scope.
Delimit Scope io_scope with io.
Notation "x <- m ;; k" := (IO.bind m (fun x => k))
  (at level 100, m at next level, right associativity) : io_scope.
Notation "m ;;; k" := (IO.bind m (fun _ => k))
  (at level 100, right associativity) : io_scope.

(** [response.raise_for_status()]: an [HTTPError], which is a
    [RequestException], for the 4xx and 5xx codes. *)
Definition is_error_status (status : Z) : bool :=
  (400 <=? status) && (status <? 600).

(** The message [raise_for_status] gives its [HTTPError]. *)
Definition http_error_message (r : response) : string :=
  pretty (status_code r) +:+
  (if status_code r <? 500 then " Client Error: " else " Server Error: ") +:+
  reason r +:+ " for url: " +:+ url r.

Definition raise_for_status (r : response) : outcome unit :=
  if is_error_status (status_code r)
  then Raise (RequestException (http_error_message r))
  else Return tt.

(** [d[key]] on a dictionary. *)
Definition dict_item {V : Type} (d : list (string * V)) (key : string) : outcome V :=
  match Py.dict_get d key with
  | Some v => Return v
  | None => Raise (KeyError key)
  end.

(** [[f(i) for i in range(k)]] for an [f] that may fail. *)
Fixpoint comprehension {A : Type} (f : nat -> outcome A) (start k : nat)
  : outcome (list A) :=
  match k with
  | O => Return []
  | S k' =>
      (x <- f start ;;
       rest <- comprehension f (S start) k' ;;
       Return (x :: rest))%outcome
  end.

(** ** fetch_books (lines 8-23) *)

Definition base_url : string := "https://gutendex.com/books/".

Definition fetch_books (net : network) (language : string) (limit : Z)
    (search_keyword : string) : IO.io json_value :=
  let params :=
    [("language", language); ("search", search_keyword); ("limit", pretty limit)] in
  IO.try_except
    (response <- IO.requests_get net (Request base_url params) ;;
     IO.lift (raise_for_status response) ;;;
     body <- IO.lift (json response) ;;
     IO.lift (dict_item body "results"))%io
    (fun e =>
       (IO.print ("Error fetching data: " +:+ e) ;;;
        IO.ret (JBooks []))%io).

(** ** download_book (lines 48-126) *)

(** The characters removed from folder and file names, lines 64-65:
    < > : double quote / \ | ? * *)
Definition reserved : string := "<>:" +:+ String "034" "/\|?*".

Definition sanitize (s : string) : string :=
  Py.filter (fun c => negb (Py.char_in c reserved)) s.

(** The pattern handed to [re.split] on line 78, character for
    character as the raw literal holds it. *)
Definition chapter_pattern : string := "Chapter\\s+\\d+".

Definition chapter_regex : Re.regex :=
  Eval vm_compute in
    match Re.compile chapter_pattern with
    | Some r => r
    | None => []
    end.

(** Line 50. *)
Definition title_of (b : book) : string :=
  Py.take 10 (Py.replace_char "/" "-" (Py.get_default (b_title b) "Unknown Title")).

(** Line 51. *)
Definition author_of (b : book) : outcome string :=
  (first <- getitem (Py.get_default (b_authors b) [Author None]) 0 ;;
   Return (Py.replace_char "/" "-" (Py.get_default (a_name first) "Unknown Author")))%outcome.

(** Line 52. *)
Definition language_of (b : book) : outcome string :=
  getitem (Py.get_default (b_languages b) ["Unknown"]) 0.

(** Line 53. *)
Definition download_url_of (b : book) : option string :=
  Py.or_else (Py.dict_get (Py.get_default (b_formats b) []) "text/plain")
             (Py.dict_get (Py.get_default (b_formats b) []) "text/html").

(** Lines 68 and 72. *)
Definition folder_name (title author : string) : string :=
  sanitize title +:+ " - " +:+ sanitize author.

Definition file_name (title author : string) : string :=
  sanitize title +:+ "-" +:+ sanitize author +:+ ".html".

(** Lines 80-86, the body of the loop over the chapters. *)
Definition chapter_body (book_folder : string) (i : nat) (chapter_content : string)
  : IO.io unit :=
  (r <- IO.lift (Roman.roman_numeral (Z.of_nat i + 1)) ;;
   let chapter_folder := Py.path_join book_folder ("Chapter_" +:+ r) in
   IO.makedirs chapter_folder ;;;
   r' <- IO.lift (Roman.roman_numeral (Z.of_nat i + 1)) ;;
   let chapter_file_path := Py.path_join chapter_folder ("Chapter_" +:+ r' +:+ ".txt") in
   IO.write_file chapter_file_path (TextFile chapter_content))%io.

(** Line 89. *)
Definition image_urls_of (b : book) : list string :=
  map snd (List.filter (fun kv => Py.startswith "image/" (fst kv))
                       (Py.get_default (b_formats b) [])).

Definition image_name (idx : nat) : string :=
  "image_" +:+ pretty (S idx) +:+ ".jpg".

(** Lines 93-100, the body of the loop over the images. *)
Definition image_body (net : network) (images_folder title author : string)
    (idx : nat) (image_url : string) : IO.io unit :=
  IO.try_except
    (image_response <- IO.requests_get net (Request image_url []) ;;
     IO.lift (raise_for_status image_response) ;;;
     let image_path := Py.path_join images_folder (image_name idx) in
     IO.write_file image_path (BinaryFile (content image_response)))%io
    (fun e =>
       IO.print ("Error downloading image " +:+ pretty (S idx) +:+ " for " +:+
                 title +:+ " by " +:+ author +:+ ": " +:+ e)).

(** Lines 111-114, one entry of the [chapters] array. *)
Definition chapter_entry_of (i : nat) : outcome chapter_entry :=
  (number <- Roman.roman_numeral (Z.of_nat i + 1) ;;
   r <- Roman.roman_numeral (Z.of_nat i + 1) ;;
   r' <- Roman.roman_numeral (Z.of_nat i + 1) ;;
   Return (ChapterEntry number
             (Py.path_join ("Chapter_" +:+ r) ("Chapter_" +:+ r' +:+ ".txt"))))%outcome.

(** Line 117, one entry of the [images] array. *)
Definition image_entry_of (idx : nat) : string :=
  Py.path_join "images" (image_name idx).

(** Lines 60-124, the body of the outer [try]. *)
Definition download_body (net : network) (b : book) (output_dir : string)
    (title author language download_url : string) : IO.io unit :=
  (response <- IO.requests_get net (Request download_url []) ;;
   IO.lift (raise_for_status response) ;;;
   let book_folder := Py.path_join output_dir (folder_name title author) in
   IO.makedirs book_folder ;;;
   let file_path := Py.path_join book_folder (file_name title author) in
   IO.write_file file_path (TextFile (text response)) ;;;
   let chapters := Re.split chapter_regex (text response) in
   IO.for_enumerate (chapter_body book_folder) 0 chapters ;;;
   let image_urls := image_urls_of b in
   let images_folder := Py.path_join book_folder "images" in
   IO.makedirs images_folder ;;;
   IO.for_enumerate (image_body net images_folder title author) 0 image_urls ;;;
   chapter_entries <- IO.lift (comprehension chapter_entry_of 0 (length chapters)) ;;
   let metadata :=
     Metadata title author language download_url file_path "Project Gutenberg"
              chapter_entries
              (map image_entry_of (seq 0 (length image_urls))) in
   let metadata_file := Py.path_join book_folder "metadata.json" in
   IO.write_file metadata_file (MetadataFile metadata) ;;;
   IO.print ("Downloaded: " +:+ title +:+ " by " +:+ author))%io.

Definition download_book (net : network) (b : book) (output_dir : string)
  : IO.io unit :=
  (let title := title_of b in
   author <- IO.lift (author_of b) ;;
   language <- IO.lift (language_of b) ;;
   let download_url := download_url_of b in
   if negb (Py.truthy download_url) then
     IO.print ("No downloadable format found for " +:+ title +:+ " by " +:+ author)
   else
     IO.try_except
       (download_body net b output_dir title author language
                      (Py.get_default download_url ""))
       (fun e =>
          IO.print ("Error downloading " +:+ title +:+ " by " +:+ author +:+ ": " +:+ e)))%io.

(** ** Names used by the statements *)

(** The request [fetch_books] sends. *)
Definition catalogue_request (language : string) (limit : Z) (search_keyword : string)
  : request :=
  Request base_url
    [("language", language); ("search", search_keyword); ("limit", pretty limit)].

(** The title as the record gives it, before line 50 shortens it. *)
Definition raw_title (b : book) : string := Py.get_default (b_title b) "Unknown Title".

(** What a GET followed by [raise_for_status] raises, if anything. *)
Definition fetch_error (net : network) (k : nat) (url : string) : option string :=
  match net k (Request url []) with
  | Failed msg => Some msg
  | Responded r =>
      if is_error_status (status_code r) then Some (http_error_message r) else None
  end.

(** ** The paths of one book *)

Definition book_folder (output_dir title author : string) : string :=
  Py.path_join output_dir (folder_name title author).

Definition content_path (output_dir title author : string) : string :=
  Py.path_join (book_folder output_dir title author) (file_name title author).

Definition metadata_path (output_dir title author : string) : string :=
  Py.path_join (book_folder output_dir title author) "metadata.json".

Definition images_folder (output_dir title author : string) : string :=
  Py.path_join (book_folder output_dir title author) "images".

Definition image_path (output_dir title author : string) (idx : nat) : string :=
  Py.path_join (images_folder output_dir title author) (image_name idx).

(** The file of a chapter, for the two numerals lines 80 and 84 compute. *)
Definition chapter_path (output_dir title author r r' : string) : string :=
  Py.path_join (Py.path_join (book_folder output_dir title author) ("Chapter_" +:+ r))
               ("Chapter_" +:+ r' +:+ ".txt").

(** What the fetch of one image comes to: the message of the
    [RequestException] ([inl]) or the bytes received ([inr]). *)
Definition image_fetch (net : network) (k : nat) (image_url : string) : string + string :=
  match net k (Request image_url []) with
  | Failed msg => inl msg
  | Responded r =>
      if is_error_status (status_code r) then inl (http_error_message r)
      else inr (content r)
  end.

Definition image_error_line (title author : string) (idx : nat) (e : string) : string :=
  "Error downloading image " +:+ pretty (S idx) +:+ " for " +:+
  title +:+ " by " +:+ author +:+ ": " +:+ e.

(** The entry of chapter [i] once the numerals are known. *)
Definition chapter_entry_at (i : nat) : chapter_entry :=
  let r := Roman.roman (Z.of_nat i + 1) in
  ChapterEntry r (Py.path_join ("Chapter_" +:+ r) ("Chapter_" +:+ r +:+ ".txt")).

(** The record written to [metadata.json] for a text of [segments]
    chapter segments and a record with [images] image URLs. *)
Definition expected_metadata (output_dir title author language download_url : string)
    (segments images : nat) : metadata :=
  Metadata title author language download_url
           (content_path output_dir title author) "Project Gutenberg"
           (map chapter_entry_at (seq 0 segments))
           (map image_entry_of (seq 0 images)).

(** What a completed download leaves behind, from world [w] to [w']. *)
Record downloaded (net : network) (b : book)
    (output_dir title author language download_url : string) (r : response)
    (w w' : world) : Prop := {
  dl_metadata :
    files w' !! metadata_path output_dir title author
    = Some (MetadataFile
              (expected_metadata output_dir title author language download_url
                 (length (Re.split chapter_regex (text r)))
                 (length (image_urls_of b))));
  dl_content :
    files w' !! content_path output_dir title author = Some (TextFile (text r));
  dl_folder : book_folder output_dir title author ∈ dirs w';
  dl_images_folder : images_folder output_dir title author ∈ dirs w';
  dl_chapter_folders :
    forall j seg, Re.split chapter_regex (text r) !! j = Some seg ->
      Py.path_join (book_folder output_dir title author)
                   ("Chapter_" +:+ Roman.roman (Z.of_nat j + 1)) ∈ dirs w';
  dl_images :
    forall j image_url, image_urls_of b !! j = Some image_url ->
      match image_fetch net (S (clock w) + j) image_url with
      | inl e =>
          files w' !! image_path output_dir title author j
            = files w !! image_path output_dir title author j /\
          In (image_error_line title author j e) (stdout w')
      | inr data =>
          files w' !! image_path output_dir title author j = Some (BinaryFile data)
      end;
  dl_logged : In ("Downloaded: " +:+ title +:+ " by " +:+ author) (stdout w');
  dl_clock : clock w' = (S (clock w) + length (image_urls_of b))%nat
}.

(** The pattern as the comment on line 77 and the description have it:
    the word Chapter, then one or more white-space characters, then one
    or more digits. *)
Definition described_chapter_regex : Re.regex :=
  map (fun c => Re.One (Re.Lit c)) (list_ascii_of_string "Chapter")
  ++ [Re.Many Re.Space; Re.Many Re.Digit].

(** The sample of the description: a text with two chapter headings. *)
Definition two_headings : string := "Intro text Chapter 1 body one Chapter 2 body two".

Definition two_headings_book : book :=
  Book (Some "Sample") (Some [Author (Some "Anon")]) (Some ["en"])
       (Some [("text/plain", "https://example.org/1.txt")]).

Definition two_headings_net : network :=
  fun _ _ => Responded (Response 200 two_headings "" (Return []) "OK" "").

(** ** main (lines 128-145) *)

(** The four values [parse_args] hands to [main]; the parsing of the
    command line itself belongs to [argparse] and is not modelled. *)
Record arguments : Type := Arguments {
  arg_lang : string;
  arg_limit : Z;
  arg_search : string;
  arg_output : string
}.

(** The defaults of lines 130-133. *)
Definition default_arguments : arguments := Arguments "en" 10 "" "output".

(** The state of a run of [main]: the world, and the seconds spent in
    [time.sleep]. *)
Record run_state : Type := RunState { rs_world : world; rs_slept : Z }.

(** How a run of [main] ends.  Besides the exceptions of [exn], the
    [for] of line 144 raises a [TypeError] on a value that cannot be
    iterated, and [download_book] an [AttributeError] on an element
    that has no [get]. *)
Inductive run_result : Type :=
| Completed
| Crashed (e : exn)
| CrashedTypeError
| CrashedAttributeError
| RanOutOfFuel.

(** Lines 144-146, over a list of records. *)
Fixpoint main_loop (net : network) (output : string) (books : list book)
    (s : run_state) : run_result * run_state :=
  match books with
  | [] => (Completed, s)
  | b :: rest =>
      match download_book net b output (rs_world s) with
      | (Return _, w') => main_loop net output rest (RunState w' (rs_slept s + 2))
      | (Raise e, w') => (Crashed e, RunState w' (rs_slept s))
      | (OutOfFuel, w') => (RanOutOfFuel, RunState w' (rs_slept s))
      end
  end.

(** Lines 135-146.  A string is iterated character by character, and
    its first character already fails in [download_book]. *)
Definition main (net : network) (args : arguments) (w : world)
  : run_result * run_state :=
  let w1 := snd (IO.makedirs (arg_output args) w) in
  match fetch_books net (arg_lang args) (arg_limit args) (arg_search args) w1 with
  | (Return books, w2) =>
      match books with
      | JBooks records => main_loop net (arg_output args) records (RunState w2 0)
      | JString EmptyString => (Completed, RunState w2 0)
      | JString (String _ _) => (CrashedAttributeError, RunState w2 0)
      | JNull | JNumber _ => (CrashedTypeError, RunState w2 0)
      end
  | (Raise e, w2) => (Crashed e, RunState w2 0)
  | (OutOfFuel, w2) => (RanOutOfFuel, RunState w2 0)
  end.

(** ** Further names used by the statements *)

(** [s * k]. *)
Fixpoint repeat_string (s : string) (k : nat) : string :=
  match k with
  | O => EmptyString
  | S k' => s +:+ repeat_string s k'
  end.

(** The file of chapter [i], counted from 0. *)
Definition chapter_file (output_dir title author : string) (i : nat) : string :=
  chapter_path output_dir title author
    (Roman.roman (Z.of_nat i + 1)) (Roman.roman (Z.of_nat i + 1)).

(** A record that gets past lines 51 and 52. *)
Definition readable (b : book) : Prop :=
  exists author language, author_of b = Return author /\ language_of b = Return language.

(** The [RequestException] the [try] of [fetch_books] catches, if any:
    the one [requests.get] raises, or the [HTTPError] of
    [raise_for_status], or the one [response.json()] raises. *)
Definition fetch_failure (net : network) (k : nat) (rq : request) : option string :=
  match net k rq with
  | Failed msg => Some msg
  | Responded r =>
      if is_error_status (status_code r) then Some (http_error_message r)
      else
        match json r with
        | Raise (RequestException msg) => Some msg
        | _ => None
        end
  end.

(** The world after [download_book] has been called on the records one
    after the other, first to last. *)
Definition downloads_in_order (net : network) (output : string) (books : list book)
    (w : world) : world :=
  fold_left (fun w b => snd (download_book net b output w)) books w.

(** A path strictly inside a folder. *)
Definition inside (folder path : string) : Prop :=
  exists rest, path = folder +:+ "/" +:+ rest.

(** * Properties *)

(** ** roman_numeral *)

Section RomanLoop.

Import Roman.

Lemma val_lookup_pos (i : nat) (v : Z) : val !! i = Some v -> 0 < v.
Proof.
  unfold val. intros H.
  do 13 (destruct i as [|i]; [cbn in H; injection H as <-; lia|]).
  discriminate H.
Qed.

Lemma val_lookup_lt (i : nat) : (i < 13)%nat -> exists v s, val !! i = Some v /\ syms !! i = Some s.
Proof.
  intros H.
  do 13 (destruct i as [|i]; [do 2 eexists; split; reflexivity|]).
  lia.
Qed.

Lemma val_lookup_last (v : Z) : val !! 12%nat = Some v -> v = 1.
Proof. intros H. injection H as <-. reflexivity. Qed.

Lemma for_range_finishes (k : nat) (st : state) (v : Z) (s : string) :
  val !! st_i st = Some v ->
  syms !! st_i st = Some s ->
  exists r, for_range k st = Return (State (st_n st - Z.of_nat k * v) (st_i st) r).
Proof.
  revert st. induction k as [|k IH]; intros [n i r] Hv Hs; simpl in *.
  - exists r. f_equal. f_equal. lia.
  - unfold getitem. rewrite Hs, Hv. simpl.
    destruct (IH (State (n - v) i (r +:+ s)) Hv Hs) as [r' Hr'].
    exists r'. rewrite Hr'. simpl. f_equal. f_equal. lia.
Qed.

Lemma while_loop_finishes (fuel : nat) (st : state) :
  (st_i st <= 13)%nat ->
  ((st_i st = 13)%nat -> st_n st <= 0) ->
  (14 <= fuel + st_i st)%nat ->
  exists st', while_loop fuel st = Return st' /\
    (st_i st <= st_i st' <= 13)%nat /\
    st_n st' <= 0 /\
    (0 <= st_n st -> 0 <= st_n st') /\
    (0 < st_n st -> (st_i st < st_i st')%nat).
Proof.
  revert st. induction fuel as [|fuel IH]; intros [n i r] Hi Hlast Hfuel; simpl in *.
  - lia.
  - destruct (0 <? n) eqn:Hn.
    + apply Z.ltb_lt in Hn.
      assert (Hlt : (i < 13)%nat) by lia.
      destruct (val_lookup_lt i Hlt) as (v & s & Hv & Hs).
      pose proof (val_lookup_pos i v Hv) as Hpos.
      unfold getitem at 1. rewrite Hv. simpl.
      destruct (for_range_finishes (Z.to_nat (n / v)) (State n i r) v s Hv Hs)
        as [r' Hr'].
      simpl in Hr'. rewrite Hr'. simpl.
      assert (Hq : 0 <= n / v) by (apply Z.div_pos; lia).
      rewrite Z2Nat.id in * by exact Hq.
      assert (Hmod : n - n / v * v = n mod v) by (rewrite Z.mod_eq by lia; lia).
      rewrite Hmod in *.
      pose proof (Z.mod_pos_bound n v Hpos) as Hbound.
      destruct (IH (State (n mod v) (S i) r')) as (st' & Hrun & Hidx & Hn' & Hge & _);
        simpl; try lia.
      * intros Hi13. assert (i = 12%nat) by lia. subst i.
        apply val_lookup_last in Hv. subst v. rewrite Z.mod_1_r. lia.
      * exists st'. rewrite Hrun. simpl in *. repeat split; try lia.
    + apply Z.ltb_ge in Hn. exists (State n i r). simpl. repeat split; lia.
Qed.

Lemma while_loop_more_fuel (fuel fuel' : nat) (st st' : state) :
  (fuel <= fuel')%nat ->
  while_loop fuel st = Return st' -> while_loop fuel' st = Return st'.
Proof.
  revert fuel' st. induction fuel as [|fuel IH]; intros fuel' st Hle; simpl;
    [discriminate|].
  destruct fuel' as [|fuel']; [lia|]. simpl.
  destruct (0 <? st_n st); [|auto].
  destruct (getitem val (st_i st)) as [v| |]; simpl; try discriminate.
  destruct (for_range (Z.to_nat (st_n st / v)) st) as [st1| |]; simpl;
    try discriminate.
  apply IH. lia.
Qed.

Lemma run_finishes (n : Z) :
  exists st, run enough n = Return st /\ (st_i st <= 13)%nat /\ st_n st <= 0 /\
    (0 < n -> st_n st = 0 /\ (1 <= st_i st)%nat).
Proof.
  destruct (while_loop_finishes enough (State n 0 "")) as (st & Hrun & Hi & Hn & Hge & Hlt);
    simpl; try lia.
  simpl in *. exists st. unfold run. split; [exact Hrun|].
  split; [lia|]. split; [exact Hn|].
  intros Hpos. specialize (Hlt Hpos). lia.
Qed.

Lemma roman_numeral_total (n : Z) : roman_numeral n = Return (roman n).
Proof.
  destruct (run_finishes n) as (st & Hrun & _).
  unfold roman, roman_numeral. rewrite Hrun. reflexivity.
Qed.

End RomanLoop.

Lemma round_trip_upto_3999 :
  forallb Roman.round_trip (map Z.of_nat (seq 1 3999)) = true.
Proof. vm_compute. reflexivity. Qed.

(** C5: for every integer from 1 to 3999, [roman_numeral] returns a
    string over the letters M, D, C, L, X, V, I which the standard
    reader of Roman numerals maps back to the integer. *)
Theorem roman_numeral_round_trip (n : Z) :
  1 <= n <= 3999 ->
  exists s, Roman.roman_numeral n = Return s /\
            Roman.string_forallb Roman.roman_alphabet s = true /\
            Roman.from_roman s = Some n.
Proof.
  intros Hn.
  pose proof round_trip_upto_3999 as Hall.
  rewrite forallb_forall in Hall.
  assert (Hin : In n (map Z.of_nat (seq 1 3999))).
  { apply in_map_iff. exists (Z.to_nat n). split; [lia|].
    apply in_seq. lia. }
  specialize (Hall n Hin). unfold Roman.round_trip in Hall.
  destruct (Roman.roman_numeral n) as [s| |]; try discriminate.
  exists s. apply andb_prop in Hall as [Halpha Hback].
  split; [reflexivity|]. split; [exact Halpha|].
  destruct (Roman.from_roman s) as [m|]; [|discriminate].
  apply Z.eqb_eq in Hback. congruence.
Qed.

Lemma roman_numeral_round_trip_witness :
  exists s, Roman.roman_numeral 1994 = Return s /\
            Roman.string_forallb Roman.roman_alphabet s = true /\
            Roman.from_roman s = Some 1994.
Proof. apply (roman_numeral_round_trip 1994). lia. Defined.

(** C10: [roman_numeral] terminates on every integer without an index
    error.  The loop is over after at most fourteen evaluations of its
    condition, and more fuel does not change its result; the index it
    stops at is at most 13, so every read of [val[i]] and [syms[i]] had
    [i <= 12].  On [n <= 0] the first evaluation of the condition ends
    the loop, with index 0 and the empty string; on [n > 0] the loop is
    entered and leaves [n] at 0. *)
Theorem roman_numeral_terminates (n : Z) :
  exists st,
    Roman.run Roman.enough n = Return st /\
    (forall fuel, (Roman.enough <= fuel)%nat -> Roman.run fuel n = Return st) /\
    Roman.roman_numeral n = Return (Roman.st_roman st) /\
    (Roman.st_i st <= 13)%nat /\
    (n <= 0 -> Roman.run 1 n = Return (Roman.State n 0 "") /\
               st = Roman.State n 0 "") /\
    (0 < n -> Roman.st_n st = 0 /\ (1 <= Roman.st_i st)%nat).
Proof.
  destruct (run_finishes n) as (st & Hrun & Hi & Hn & Hpos).
  exists st. split; [exact Hrun|]. split.
  { intros fuel Hfuel. now apply (while_loop_more_fuel Roman.enough). }
  split.
  { unfold Roman.roman_numeral. rewrite Hrun. reflexivity. }
  split; [exact Hi|]. split; [|exact Hpos].
  intros Hle. revert Hrun. unfold Roman.run. simpl.
  destruct (0 <? n) eqn:E; [apply Z.ltb_lt in E; lia|].
  intros [= <-]. split; reflexivity.
Qed.

Lemma roman_numeral_terminates_witness :
  (exists st, Roman.run Roman.enough (-5) = Return st /\ st = Roman.State (-5) 0 "") /\
  (exists st, Roman.run Roman.enough 2024 = Return st /\ Roman.st_n st = 0).
Proof.
  split.
  - destruct (roman_numeral_terminates (-5)) as (st & Hrun & _ & _ & _ & Hle & _).
    exists st. split; [exact Hrun|]. apply Hle. lia.
  - destruct (roman_numeral_terminates 2024) as (st & Hrun & _ & _ & _ & _ & Hpos).
    exists st. split; [exact Hrun|]. apply Hpos. lia.
Defined.

(** ** fetch_books *)

(** C4: when the request fails in transport or is answered with a 4xx
    or 5xx status (the statuses [raise_for_status] rejects),
    [fetch_books] logs and returns the empty list; on any other answer
    it returns the value under [results] of the parsed body, and when
    the body has no such key the [KeyError] reaches the caller. *)
Theorem fetch_books_contract (net : network) (language : string) (limit : Z)
    (search_keyword : string) (w : world) :
  let rq := catalogue_request language limit search_keyword in
  let run := fetch_books net language limit search_keyword w in
  (forall msg, net (clock w) rq = Failed msg ->
     fst run = Return (JBooks []) /\
     stdout (snd run) = stdout w ++ ["Error fetching data: " +:+ msg]) /\
  (forall r, net (clock w) rq = Responded r ->
     is_error_status (status_code r) = true ->
     fst run = Return (JBooks []) /\
     stdout (snd run) = stdout w ++ ["Error fetching data: " +:+ http_error_message r]) /\
  (forall r body v, net (clock w) rq = Responded r ->
     is_error_status (status_code r) = false ->
     json r = Return body ->
     Py.dict_get body "results" = Some v ->
     fst run = Return v /\ stdout (snd run) = stdout w) /\
  (forall r body, net (clock w) rq = Responded r ->
     is_error_status (status_code r) = false ->
     json r = Return body ->
     Py.dict_get body "results" = None ->
     fst run = Raise (KeyError "results")).
Proof.
  intros rq run. subst rq run.
  unfold fetch_books, catalogue_request, IO.try_except, IO.bind, IO.requests_get,
    IO.lift, raise_for_status, dict_item, IO.print, IO.ret.
  split; [|split; [|split]].
  - intros msg Hnet. rewrite Hnet. split; reflexivity.
  - intros r Hnet Hstatus. rewrite Hnet, Hstatus. split; reflexivity.
  - intros r body v Hnet Hstatus Hjson Hkey.
    rewrite Hnet, Hstatus, Hjson, Hkey. split; reflexivity.
  - intros r body Hnet Hstatus Hjson Hkey.
    rewrite Hnet, Hstatus, Hjson, Hkey. reflexivity.
Qed.

Lemma fetch_books_contract_witness :
  let w := World ∅ ∅ [] 0 in
  let gone : network := fun _ _ => Failed "timed out" in
  let refused : network := fun _ _ =>
    Responded (Response 503 "" "" (Return []) "Service Unavailable"
                        "https://gutendex.com/books/") in
  let answer :=
    Response 200 "" ""
      (Return [("count", JNumber 1); ("results", JBooks [Book None None None None])])
      "OK" "" in
  let bare := Response 200 "" "" (Return [("detail", JString "Not found.")]) "OK" "" in
  fst (fetch_books gone "en" 10 "" w) = Return (JBooks []) /\
  fst (fetch_books refused "en" 10 "" w) = Return (JBooks []) /\
  fst (fetch_books (fun _ _ => Responded answer) "en" 10 "" w)
    = Return (JBooks [Book None None None None]) /\
  fst (fetch_books (fun _ _ => Responded bare) "en" 10 "" w) = Raise (KeyError "results").
Proof.
  intros w gone refused answer bare. split; [|split; [|split]].
  - apply (fetch_books_contract gone "en" 10 "" w) with (msg := "timed out").
    reflexivity.
  - apply (fetch_books_contract refused "en" 10 "" w)
      with (r := Response 503 "" "" (Return []) "Service Unavailable"
                          "https://gutendex.com/books/"); reflexivity.
  - apply (fetch_books_contract (fun _ _ => Responded answer) "en" 10 "" w)
      with (r := answer) (body := [("count", JNumber 1);
                                   ("results", JBooks [Book None None None None])]);
      reflexivity.
  - apply (fetch_books_contract (fun _ _ => Responded bare) "en" 10 "" w)
      with (r := bare) (body := [("detail", JString "Not found.")]); reflexivity.
Defined.

(** ** Strings and paths *)

Section Strings.

Local Arguments String.append !_ _ / : simpl nomatch.

Lemma append_nil_r (s : string) : s +:+ "" = s.
Proof. induction s as [|c s IH]; simpl; [reflexivity|]. now rewrite IH. Qed.

Lemma append_assoc (a b c : string) : (a +:+ b) +:+ c = a +:+ b +:+ c.
Proof. induction a as [|x a IH]; simpl; [reflexivity|]. now rewrite IH. Qed.

Lemma length_append (a b : string) :
  String.length (a +:+ b) = (String.length a + String.length b)%nat.
Proof. induction a as [|x a IH]; simpl; [reflexivity|]. now rewrite IH. Qed.

Lemma append_inv_tail (a b c : string) : a +:+ c = b +:+ c -> a = b.
Proof.
  revert b. induction a as [|x a IH]; intros [|y b] H; simpl in H.
  - reflexivity.
  - apply (f_equal String.length) in H. simpl in H. rewrite length_append in H. lia.
  - apply (f_equal String.length) in H. simpl in H. rewrite length_append in H. lia.
  - injection H as -> H. f_equal. now apply IH.
Qed.

Lemma char_in_append (c : ascii) (a b : string) :
  Py.char_in c (a +:+ b) = Py.char_in c a || Py.char_in c b.
Proof.
  induction a as [|x a IH]; simpl; [reflexivity|].
  rewrite IH. now rewrite orb_assoc.
Qed.

Lemma startswith_char_in (c : ascii) (s : string) :
  Py.startswith (String c "") s = true -> Py.char_in c s = true.
Proof.
  destruct s as [|d s]; simpl; [discriminate|].
  rewrite andb_true_r. intros ->. reflexivity.
Qed.

Lemma endswith_char_in (c : ascii) (s : string) :
  Py.endswith_char c s = true -> Py.char_in c s = true.
Proof.
  induction s as [|d s IH]; simpl; [discriminate|].
  destruct s as [|e s].
  - intros H. simpl. rewrite Ascii.eqb_sym, H. reflexivity.
  - intros H. rewrite (IH H). apply orb_true_r.
Qed.

Lemma endswith_append (c : ascii) (a b : string) :
  b <> "" -> Py.endswith_char c (a +:+ b) = Py.endswith_char c b.
Proof.
  intros Hb. induction a as [|x a IH]; simpl; [reflexivity|].
  destruct (a +:+ b) as [|y r] eqn:E.
  - destruct a; simpl in E; [contradiction|discriminate].
  - exact IH.
Qed.

Lemma filter_char_in (p : ascii -> bool) (c : ascii) (s : string) :
  p c = false -> Py.char_in c (Py.filter p s) = false.
Proof.
  intros Hc. induction s as [|d s IH]; simpl; [reflexivity|].
  destruct (p d) eqn:Hd; simpl; [|exact IH].
  rewrite IH, orb_false_r.
  destruct (Ascii.eqb_spec c d) as [->|]; [congruence|reflexivity].
Qed.

Lemma sanitize_clean (c : ascii) (s : string) :
  Py.char_in c reserved = true -> Py.char_in c (sanitize s) = false.
Proof.
  intros Hc. unfold sanitize. apply filter_char_in. now rewrite Hc.
Qed.

Lemma reserved_not_in_glue (c : ascii) :
  Py.char_in c reserved = true ->
  Py.char_in c " - " = false /\ Py.char_in c "-" = false /\
  Py.char_in c ".html" = false.
Proof.
  destruct c as [[] [] [] [] [] [] [] []]; vm_compute; intros H;
    try discriminate H; repeat split.
Qed.

Lemma folder_name_clean (c : ascii) (title author : string) :
  Py.char_in c reserved = true -> Py.char_in c (folder_name title author) = false.
Proof.
  intros Hc. unfold folder_name.
  destruct (reserved_not_in_glue c Hc) as (Hglue & _ & _).
  now rewrite !char_in_append, !(sanitize_clean c), Hglue by exact Hc.
Qed.

Lemma file_name_clean (c : ascii) (title author : string) :
  Py.char_in c reserved = true -> Py.char_in c (file_name title author) = false.
Proof.
  intros Hc. unfold file_name.
  destruct (reserved_not_in_glue c Hc) as (_ & Hdash & Hext).
  now rewrite !char_in_append, !(sanitize_clean c), Hdash, Hext by exact Hc.
Qed.

End Strings.

Section Paths.

Local Arguments String.append !_ _ / : simpl nomatch.

Lemma path_join_under (a x : string) :
  a <> "" -> Py.endswith_char "/" a = false -> Py.startswith "/" x = false ->
  Py.path_join a x = a +:+ "/" +:+ x.
Proof.
  intros Ha Hend Hx. unfold Py.path_join. rewrite Hx, Hend.
  destruct (String.eqb_spec a ""); [contradiction|reflexivity].
Qed.

Lemma path_join_inj (a x y : string) :
  Py.startswith "/" x = false -> Py.startswith "/" y = false ->
  Py.path_join a x = Py.path_join a y -> x = y.
Proof.
  intros Hx Hy. unfold Py.path_join. rewrite Hx, Hy.
  destruct (_ || _); intros H.
  - now apply (inj (String.app a)) in H.
  - apply (inj (String.app a)) in H. now apply (inj (String.app "/")) in H.
Qed.

Lemma image_name_inj (i j : nat) : image_name i = image_name j -> i = j.
Proof.
  unfold image_name. intros H.
  apply (inj (String.app "image_")) in H.
  apply append_inv_tail in H.
  apply (inj pretty) in H. lia.
Qed.

Lemma image_path_inj (folder : string) (i j : nat) :
  Py.path_join folder (image_name i) = Py.path_join folder (image_name j) -> i = j.
Proof.
  intros H. apply image_name_inj.
  now apply (path_join_inj folder) in H.
Qed.

Variables output_dir title author : string.

Let bf := book_folder output_dir title author.

Lemma folder_name_no_slash : Py.char_in "/" (folder_name title author) = false.
Proof. now apply folder_name_clean. Qed.

Lemma file_name_no_slash : Py.char_in "/" (file_name title author) = false.
Proof. now apply file_name_clean. Qed.

Lemma folder_name_not_empty : folder_name title author <> "".
Proof.
  unfold folder_name. intros H. apply (f_equal (Py.char_in " ")) in H.
  rewrite !char_in_append in H. simpl in H.
  rewrite orb_true_r in H. discriminate.
Qed.

Lemma no_sep_startswith (s : string) :
  Py.char_in "/" s = false -> Py.startswith "/" s = false.
Proof.
  intros H. destruct (Py.startswith "/" s) eqn:E; [|reflexivity].
  apply startswith_char_in in E. congruence.
Qed.

Lemma no_sep_endswith (s : string) :
  Py.char_in "/" s = false -> Py.endswith_char "/" s = false.
Proof.
  intros H. destruct (Py.endswith_char "/" s) eqn:E; [|reflexivity].
  apply endswith_char_in in E. congruence.
Qed.

Lemma book_folder_shape : bf <> "" /\ Py.endswith_char "/" bf = false.
Proof.
  subst bf. unfold book_folder, Py.path_join.
  rewrite (no_sep_startswith _ folder_name_no_slash).
  pose proof folder_name_not_empty as Hne.
  pose proof (no_sep_endswith _ folder_name_no_slash) as Hend.
  destruct (_ || _); split.
  - intros H. apply (f_equal String.length) in H. rewrite length_append in H.
    destruct (folder_name title author); [contradiction|simpl in H; lia].
  - now rewrite endswith_append.
  - intros H. apply (f_equal String.length) in H. rewrite !length_append in H.
    simpl in H. lia.
  - rewrite endswith_append; [now rewrite endswith_append|].
    discriminate.
Qed.

Lemma under_book_folder (x : string) :
  Py.startswith "/" x = false -> Py.path_join bf x = bf +:+ "/" +:+ x.
Proof. destruct book_folder_shape. now apply path_join_under. Qed.

Lemma content_path_eq :
  content_path output_dir title author = bf +:+ "/" +:+ file_name title author.
Proof. apply under_book_folder, no_sep_startswith, file_name_no_slash. Qed.

Lemma metadata_path_eq :
  metadata_path output_dir title author = bf +:+ "/" +:+ "metadata.json".
Proof. now apply under_book_folder. Qed.

Lemma image_path_eq (idx : nat) :
  image_path output_dir title author idx
  = bf +:+ "/" +:+ "images/" +:+ image_name idx.
Proof.
  unfold image_path, images_folder. fold bf.
  rewrite (under_book_folder "images") by reflexivity.
  rewrite path_join_under; try reflexivity.
  - now rewrite !append_assoc.
  - intros H. apply (f_equal String.length) in H. rewrite !length_append in H.
    simpl in H. lia.
  - rewrite endswith_append; [reflexivity|discriminate].
Qed.

Lemma chapter_path_eq (r r' : string) :
  exists tail, chapter_path output_dir title author r r'
               = bf +:+ "/" +:+ String "C" tail /\ Py.char_in "/" tail = true.
Proof.
  unfold chapter_path. fold bf.
  rewrite (under_book_folder ("Chapter_" +:+ r)) by reflexivity.
  unfold Py.path_join at 1.
  replace (Py.startswith "/" ("Chapter_" +:+ r' +:+ ".txt")) with false by reflexivity.
  destruct (_ || _) eqn:E.
  - apply orb_prop in E as [E|E].
    + apply String.eqb_eq, (f_equal String.length) in E.
      rewrite !length_append in E. simpl in E. lia.
    + rewrite endswith_append in E by discriminate.
      rewrite endswith_append in E by discriminate.
      apply endswith_char_in in E. simpl in E.
      eexists. rewrite !append_assoc. simpl. split; [reflexivity|].
      simpl. rewrite char_in_append, E. reflexivity.
  - eexists. rewrite !append_assoc. simpl. split; [reflexivity|].
    simpl. rewrite char_in_append. simpl. apply orb_true_r.
Qed.

End Paths.

Section PathsDistinct.

Local Arguments String.append !_ _ / : simpl nomatch.

Variables output_dir title author : string.

Ltac strip_folder H :=
  apply (inj (String.app (book_folder output_dir title author))) in H;
  apply (inj (String.app "/")) in H.

Lemma image_not_content (idx : nat) :
  image_path output_dir title author idx <> content_path output_dir title author.
Proof.
  rewrite image_path_eq, content_path_eq. intros H. strip_folder H.
  apply (f_equal (Py.char_in "/")) in H.
  rewrite file_name_no_slash in H. simpl in H. discriminate.
Qed.

Lemma image_not_metadata (idx : nat) :
  image_path output_dir title author idx <> metadata_path output_dir title author.
Proof.
  rewrite image_path_eq, metadata_path_eq. intros H. strip_folder H.
  simpl in H. discriminate.
Qed.

Lemma image_not_chapter (idx : nat) (r r' : string) :
  image_path output_dir title author idx <> chapter_path output_dir title author r r'.
Proof.
  destruct (chapter_path_eq output_dir title author r r') as (tail & -> & _).
  rewrite image_path_eq. intros H. strip_folder H.
  simpl in H. discriminate.
Qed.

Lemma content_not_chapter (r r' : string) :
  content_path output_dir title author <> chapter_path output_dir title author r r'.
Proof.
  destruct (chapter_path_eq output_dir title author r r') as (tail & -> & Htail).
  rewrite content_path_eq. intros H. strip_folder H.
  apply (f_equal (Py.char_in "/")) in H.
  rewrite file_name_no_slash in H. simpl in H. congruence.
Qed.

Lemma content_not_metadata :
  content_path output_dir title author <> metadata_path output_dir title author.
Proof.
  rewrite content_path_eq, metadata_path_eq. intros H. strip_folder H.
  apply (f_equal (Py.char_in "-")) in H. unfold file_name in H.
  rewrite !char_in_append in H. simpl in H.
  rewrite orb_true_r in H. discriminate.
Qed.

End PathsDistinct.

(** ** The loops of download_book *)

Section Loops.

Lemma ancestors_self (seen rest : string) :
  In (seen +:+ rest) (Py.ancestors seen rest).
Proof.
  revert seen. induction rest as [|c rest IH]; intros seen; simpl.
  - left. now rewrite append_nil_r.
  - assert (Hstep : seen +:+ String c rest = (seen +:+ String c "") +:+ rest)
      by now rewrite append_assoc.
    destruct (Ascii.eqb c "/").
    + destruct seen as [|d seen].
      * apply (IH (String c "")).
      * right. rewrite Hstep. apply IH.
    + rewrite Hstep. apply IH.
Qed.

Lemma makedirs_creates (path : string) (w : world) :
  path ∈ dirs (snd (IO.makedirs path w)).
Proof.
  simpl. apply elem_of_union_r, elem_of_list_to_set, list_elem_of_In.
  apply (ancestors_self "" path).
Qed.

Lemma chapter_body_eq (output_dir title author : string) (i : nat) (seg : string)
    (w : world) :
  let r := Roman.roman (Z.of_nat i + 1) in
  let folder := Py.path_join (book_folder output_dir title author) ("Chapter_" +:+ r) in
  chapter_body (book_folder output_dir title author) i seg w
  = (Return tt,
     World (dirs w ∪ list_to_set (Py.ancestors "" folder))
           (<[chapter_path output_dir title author r r := TextFile seg]> (files w))
           (stdout w) (clock w)).
Proof.
  unfold chapter_body, IO.bind, IO.lift.
  rewrite roman_numeral_total. reflexivity.
Qed.

Lemma chapters_loop (output_dir title author : string) (l : list string) (i : nat)
    (w : world) :
  exists w',
    IO.for_enumerate (chapter_body (book_folder output_dir title author)) i l w
      = (Return tt, w') /\
    stdout w' = stdout w /\ clock w' = clock w /\
    dirs w ⊆ dirs w' /\
    (forall p, (forall r r', p <> chapter_path output_dir title author r r') ->
               files w' !! p = files w !! p) /\
    (forall j seg, l !! j = Some seg ->
       Py.path_join (book_folder output_dir title author)
                    ("Chapter_" +:+ Roman.roman (Z.of_nat (i + j) + 1)) ∈ dirs w').
Proof.
  revert i w. induction l as [|seg l IH]; intros i w; simpl.
  - exists w. repeat split; try reflexivity. intros j seg H. discriminate H.
  - unfold IO.bind. rewrite chapter_body_eq.
    match goal with |- context [IO.for_enumerate _ _ _ ?w1] =>
      destruct (IH (S i) w1) as (w' & Hrun & Hout & Hclock & Hdirs & Hfiles & Hmade)
    end.
    exists w'. rewrite Hrun. simpl in *.
    split; [reflexivity|]. split; [exact Hout|]. split; [exact Hclock|].
    split; [set_solver|]. split.
    + intros p Hp. rewrite (Hfiles p Hp). apply lookup_insert_ne. auto.
    + intros [|j] seg' Hj.
      * apply Hdirs. rewrite Nat.add_0_r.
        apply elem_of_union_r, elem_of_list_to_set, list_elem_of_In.
        apply (ancestors_self "").
      * replace (i + S j)%nat with (S i + j)%nat by lia. now apply (Hmade j seg').
Qed.

Lemma image_body_eq (net : network) (folder title author : string) (idx : nat)
    (image_url : string) (w : world) :
  image_body net folder title author idx image_url w
  = (Return tt,
     match image_fetch net (clock w) image_url with
     | inl e =>
         World (dirs w) (files w)
               (stdout w ++ [image_error_line title author idx e]) (S (clock w))
     | inr data =>
         World (dirs w)
               (<[Py.path_join folder (image_name idx) := BinaryFile data]> (files w))
               (stdout w) (S (clock w))
     end).
Proof.
  unfold image_body, image_fetch, IO.try_except, IO.bind, IO.requests_get, IO.lift,
    raise_for_status.
  destruct (net (clock w) (Request image_url [])) as [msg|r]; [reflexivity|].
  destruct (is_error_status (status_code r)); reflexivity.
Qed.

Lemma images_loop (net : network) (folder title author : string) (l : list string)
    (idx : nat) (w : world) :
  exists w',
    IO.for_enumerate (image_body net folder title author) idx l w = (Return tt, w') /\
    clock w' = (clock w + length l)%nat /\
    dirs w' = dirs w /\
    (forall line, In line (stdout w) -> In line (stdout w')) /\
    (forall p, (forall j, (idx <= j)%nat -> p <> Py.path_join folder (image_name j)) ->
               files w' !! p = files w !! p) /\
    (forall j image_url, l !! j = Some image_url ->
       match image_fetch net (clock w + j) image_url with
       | inl e =>
           files w' !! Py.path_join folder (image_name (idx + j))
             = files w !! Py.path_join folder (image_name (idx + j)) /\
           In (image_error_line title author (idx + j) e) (stdout w')
       | inr data =>
           files w' !! Py.path_join folder (image_name (idx + j))
             = Some (BinaryFile data)
       end).
Proof.
  revert idx w. induction l as [|u l IH]; intros idx w; simpl.
  - exists w. split; [reflexivity|]. split; [lia|]. split; [reflexivity|].
    split; [auto|]. split; [auto|]. intros j image_url H. discriminate H.
  - unfold IO.bind. rewrite image_body_eq.
    match goal with |- context [IO.for_enumerate _ _ _ ?w1] =>
      set (w1' := w1);
      destruct (IH (S idx) w1') as (w' & Hrun & Hclock & Hdirs & Hout & Hfiles & Himg)
    end.
    assert (Hc1 : clock w1' = S (clock w))
      by (subst w1'; destruct (image_fetch net (clock w) u); reflexivity).
    assert (Hd1 : dirs w1' = dirs w)
      by (subst w1'; destruct (image_fetch net (clock w) u); reflexivity).
    assert (Ho1 : forall line, In line (stdout w) -> In line (stdout w1')).
    { subst w1'. intros line Hin.
      destruct (image_fetch net (clock w) u); simpl; [|exact Hin].
      apply in_or_app. now left. }
    assert (Hf1 : forall p, p <> Py.path_join folder (image_name idx) ->
                            files w1' !! p = files w !! p).
    { subst w1'. intros p Hp.
      destruct (image_fetch net (clock w) u); simpl; [reflexivity|].
      apply lookup_insert_ne. auto. }
    assert (Hkeep : files w' !! Py.path_join folder (image_name idx)
                    = files w1' !! Py.path_join folder (image_name idx)).
    { apply Hfiles. intros j Hj Heq. apply image_path_inj in Heq. lia. }
    exists w'. rewrite Hrun. split; [reflexivity|]. split; [lia|].
    split; [congruence|]. split; [auto|]. split.
    + intros p Hp. rewrite Hfiles by (intros j Hj; apply Hp; lia).
      apply Hf1, Hp. lia.
    + intros [|j] image_url Hj.
      * injection Hj as <-. rewrite !Nat.add_0_r, Hkeep.
        subst w1'. destruct (image_fetch net (clock w) u) as [e|data]; simpl.
        -- split; [reflexivity|]. apply Hout. simpl. apply in_or_app. right. now left.
        -- apply lookup_insert_eq.
      * specialize (Himg j image_url Hj).
        rewrite Hc1 in Himg.
        replace (clock w + S j)%nat with (S (clock w) + j)%nat by lia.
        replace (idx + S j)%nat with (S idx + j)%nat by lia.
        destruct (image_fetch net (S (clock w) + j) image_url) as [e|data];
          [|exact Himg].
        destruct Himg as [Hsame Hlog]. split; [|exact Hlog].
        rewrite Hsame. apply Hf1. intros Heq. apply image_path_inj in Heq. lia.
Qed.

Lemma chapter_entry_of_eq (i : nat) : chapter_entry_of i = Return (chapter_entry_at i).
Proof.
  unfold chapter_entry_of, chapter_entry_at.
  rewrite roman_numeral_total. reflexivity.
Qed.

Lemma chapters_comprehension (start k : nat) :
  comprehension chapter_entry_of start k = Return (map chapter_entry_at (seq start k)).
Proof.
  revert start. induction k as [|k IH]; intros start; simpl; [reflexivity|].
  rewrite chapter_entry_of_eq, IH. reflexivity.
Qed.

End Loops.

(** ** download_book, the run that reaches the end *)

Section Download.

Ltac io_step := unfold IO.bind at 1; cbn [dirs files stdout clock].

Lemma download_body_success (net : network) (b : book)
    (output_dir title author language download_url : string) (w : world) (r : response) :
  net (clock w) (Request download_url []) = Responded r ->
  is_error_status (status_code r) = false ->
  exists w',
    download_body net b output_dir title author language download_url w
      = (Return tt, w') /\
    downloaded net b output_dir title author language download_url r w w'.
Proof.
  intros Hnet Hstatus.
  unfold download_body, IO.bind at 1 2, IO.requests_get, IO.lift, raise_for_status.
  rewrite Hnet, Hstatus.
  unfold IO.bind at 1, IO.makedirs at 1.
  unfold IO.bind at 1, IO.write_file at 1.
  io_step.
  fold (book_folder output_dir title author).
  fold (content_path output_dir title author).
  match goal with |- context [IO.for_enumerate _ _ _ ?w1] =>
    destruct (chapters_loop output_dir title author
                (Re.split chapter_regex (text r)) 0 w1)
      as (w2 & Hrun2 & Hout2 & Hclock2 & Hdirs2 & Hfiles2 & Hmade2)
  end.
  rewrite Hrun2. cbn [dirs files stdout clock] in *.
  unfold IO.bind at 1, IO.makedirs at 1.
  io_step.
  fold (images_folder output_dir title author).
  match goal with |- context [IO.for_enumerate _ _ _ ?w3] =>
    destruct (images_loop net (images_folder output_dir title author) title author
                (image_urls_of b) 0 w3)
      as (w4 & Hrun4 & Hclock4 & Hdirs4 & Hout4 & Hfiles4 & Himg4)
  end.
  rewrite Hrun4. cbn [dirs files stdout clock] in *.
  io_step. rewrite chapters_comprehension.
  unfold IO.bind at 1, IO.write_file at 1, IO.print.
  fold (metadata_path output_dir title author).
  cbn [dirs files stdout clock] in *.
  eexists. split; [reflexivity|].
  assert (Hcontent2 : files w2 !! content_path output_dir title author
                      = Some (TextFile (text r))).
  { rewrite Hfiles2 by (intros; apply content_not_chapter).
    apply lookup_insert_eq. }
  assert (Himage2 : forall j, files w2 !! image_path output_dir title author j
                              = files w !! image_path output_dir title author j).
  { intros j. rewrite Hfiles2 by (intros; apply image_not_chapter).
    apply lookup_insert_ne. intros Heq. symmetry in Heq.
    exact (image_not_content output_dir title author j Heq). }
  split; cbn [dirs files stdout clock].
  - apply lookup_insert_eq.
  - rewrite lookup_insert_ne by (intros Heq; symmetry in Heq;
                                  now apply content_not_metadata in Heq).
    rewrite Hfiles4; [exact Hcontent2|].
    intros j _ Heq. symmetry in Heq. now apply image_not_content in Heq.
  - rewrite Hdirs4. apply elem_of_union_l, Hdirs2, elem_of_union_r.
    apply elem_of_list_to_set, list_elem_of_In, (ancestors_self "").
  - rewrite Hdirs4. apply elem_of_union_r.
    apply elem_of_list_to_set, list_elem_of_In, (ancestors_self "").
  - intros j seg Hj. rewrite Hdirs4. apply elem_of_union_l.
    apply (Hmade2 j seg Hj).
  - intros j image_url Hj. specialize (Himg4 j image_url Hj).
    rewrite Hclock2 in Himg4. change (0 + j)%nat with j in Himg4.
    fold (image_path output_dir title author j) in Himg4.
    rewrite lookup_insert_ne by (intros Heq; symmetry in Heq;
                                  now apply image_not_metadata in Heq).
    destruct (image_fetch net (S (clock w) + j) image_url) as [e|data];
      [|exact Himg4].
    destruct Himg4 as [Hsame Hlog]. split.
    + rewrite Hsame. apply Himage2.
    + apply in_or_app. now left.
  - apply in_or_app. right. now left.
  - rewrite Hclock4, Hclock2. reflexivity.
Qed.

Lemma download_book_success (net : network) (b : book) (output_dir : string)
    (author language download_url : string) (w : world) (r : response) :
  author_of b = Return author ->
  language_of b = Return language ->
  download_url_of b = Some download_url ->
  download_url <> "" ->
  net (clock w) (Request download_url []) = Responded r ->
  is_error_status (status_code r) = false ->
  exists w',
    download_book net b output_dir w = (Return tt, w') /\
    downloaded net b output_dir (title_of b) author language download_url r w w'.
Proof.
  intros Hauthor Hlanguage Hurl Hne Hnet Hstatus.
  destruct (download_body_success net b output_dir (title_of b) author language
              download_url w r Hnet Hstatus) as (w' & Hrun & Hdone).
  exists w'. split; [|exact Hdone].
  unfold download_book, IO.bind, IO.lift.
  rewrite Hauthor, Hlanguage, Hurl.
  destruct download_url as [|c u]; [contradiction|].
  cbn [Py.truthy negb Py.get_default]. unfold IO.try_except. now rewrite Hrun.
Qed.

End Download.

(** ** re.split *)

Section Split.

Local Arguments String.append !_ _ / : simpl nomatch.

Lemma split_from_length (r : Re.regex) (s : string) (skip : nat) (cur : string) :
  (1 <= length (Re.split_from r s skip cur))%nat.
Proof.
  revert skip cur. induction s as [|c s IH]; intros skip cur; simpl; [lia|].
  destruct skip as [|k]; [|apply IH].
  destruct (Re.match_here r (String c s)) as [[|k]|]; simpl;
    try apply IH; lia.
Qed.

Lemma split_from_no_match (r : Re.regex) (s cur : string) :
  Re.search r s = false -> Re.split_from r s 0 cur = [cur +:+ s].
Proof.
  revert cur. induction s as [|c s IH]; intros cur H.
  - simpl. now rewrite append_nil_r.
  - cbn [Re.split_from]. cbn [Re.search] in H.
    destruct (Re.match_here r (String c s)) as [[|k]|]; try discriminate H;
      rewrite (IH _ H), append_assoc; reflexivity.
Qed.

End Split.

(** ** download_book: completed downloads *)

(** C6: the split of any text has at least one segment, a text the
    pattern matches nowhere is its own single segment, and the
    [chapters] array written to [metadata.json] has one entry per
    segment, entry [i] carrying the numeral of [i+1]; the first one,
    which holds whatever precedes the first match, is numbered I. *)
Theorem chapter_entries_match_segments :
  (forall body : string, (1 <= length (Re.split chapter_regex body))%nat) /\
  (forall body : string,
     Re.search chapter_regex body = false -> Re.split chapter_regex body = [body]) /\
  (forall (net : network) (b : book) (output_dir author language download_url : string)
          (w : world) (r : response),
     author_of b = Return author ->
     language_of b = Return language ->
     download_url_of b = Some download_url ->
     download_url <> "" ->
     net (clock w) (Request download_url []) = Responded r ->
     is_error_status (status_code r) = false ->
     exists w' md,
       download_book net b output_dir w = (Return tt, w') /\
       files w' !! metadata_path output_dir (title_of b) author
         = Some (MetadataFile md) /\
       length (md_chapters md) = length (Re.split chapter_regex (text r)) /\
       md_chapters md
         = map chapter_entry_at (seq 0 (length (Re.split chapter_regex (text r)))) /\
       (forall entry, md_chapters md !! 0%nat = Some entry -> chapter_number entry = "I")).
Proof.
  split; [|split].
  - intros body. apply split_from_length.
  - intros body H. unfold Re.split. now rewrite split_from_no_match.
  - intros net b output_dir author language download_url w r
      Hauthor Hlanguage Hurl Hne Hnet Hstatus.
    destruct (download_book_success net b output_dir author language download_url w r)
      as (w' & Hrun & Hdone); try assumption.
    exists w'. eexists. split; [exact Hrun|]. split; [apply (dl_metadata _ _ _ _ _ _ _ _ _ _ Hdone)|].
    cbn [expected_metadata md_chapters].
    split; [now rewrite length_map, length_seq|]. split; [reflexivity|].
    pose proof (split_from_length chapter_regex (text r) 0 "") as Hlen.
    fold (Re.split chapter_regex (text r)) in Hlen.
    destruct (length (Re.split chapter_regex (text r))) as [|k]; [lia|].
    intros entry [= <-]. reflexivity.
Qed.

Lemma chapter_entries_match_segments_witness :
  let body := "Preface CHAPTER 1 It was the best of times" in
  let net : network := fun _ _ => Responded (Response 200 body "" (Return []) "OK" "") in
  let b := Book (Some "A Tale") (Some [Author (Some "Dickens")]) (Some ["en"])
                (Some [("text/plain", "https://example.org/98.txt")]) in
  Re.split chapter_regex body = [body] /\
  exists w' md,
    download_book net b "output" (World ∅ ∅ [] 0) = (Return tt, w') /\
    files w' !! metadata_path "output" (title_of b) "Dickens" = Some (MetadataFile md) /\
    length (md_chapters md) = length (Re.split chapter_regex body).
Proof.
  intros body net b.
  destruct chapter_entries_match_segments as (_ & Hnone & Hrun).
  split; [apply Hnone; reflexivity|].
  destruct (Hrun net b "output" "Dickens" "en" "https://example.org/98.txt"
              (World ∅ ∅ [] 0) (Response 200 body "" (Return []) "OK" "")
              eq_refl eq_refl eq_refl ltac:(discriminate) eq_refl eq_refl)
    as (w' & md & Hdone & Hfile & Hlen & _).
  exists w', md. split; [exact Hdone|]. split; [exact Hfile|exact Hlen].
Defined.

Lemma image_entry_explicit (idx : nat) :
  image_entry_of idx = "images/image_" +:+ pretty (S idx) +:+ ".jpg".
Proof. reflexivity. Qed.

Lemma image_path_explicit (output_dir title author : string) (idx : nat) :
  image_path output_dir title author idx
  = book_folder output_dir title author +:+ "/images/image_" +:+ pretty (S idx) +:+ ".jpg".
Proof. rewrite image_path_eq. reflexivity. Qed.

(** C3: for a record with [n] image URLs the [images] array of
    [metadata.json] is [images/image_1.jpg] ... [images/image_n.jpg],
    whatever became of the fetches.  The download completes; an image
    whose fetch failed leaves its file as it was before the run and a
    line on the standard output, an image whose fetch succeeded has its
    bytes in its file. *)
Theorem metadata_lists_every_image (net : network) (b : book)
    (output_dir author language download_url : string) (w : world) (r : response) :
  author_of b = Return author ->
  language_of b = Return language ->
  download_url_of b = Some download_url ->
  download_url <> "" ->
  net (clock w) (Request download_url []) = Responded r ->
  is_error_status (status_code r) = false ->
  let n := length (image_urls_of b) in
  let file idx :=
    book_folder output_dir (title_of b) author
      +:+ "/images/image_" +:+ pretty (S idx) +:+ ".jpg" in
  exists w' md,
    download_book net b output_dir w = (Return tt, w') /\
    files w' !! metadata_path output_dir (title_of b) author = Some (MetadataFile md) /\
    md_images md
      = map (fun idx => "images/image_" +:+ pretty (S idx) +:+ ".jpg") (seq 0 n) /\
    length (md_images md) = n /\
    (forall idx image_url, image_urls_of b !! idx = Some image_url ->
       match image_fetch net (S (clock w) + idx) image_url with
       | inl e =>
           files w' !! file idx = files w !! file idx /\
           In (image_error_line (title_of b) author idx e) (stdout w')
       | inr data => files w' !! file idx = Some (BinaryFile data)
       end).
Proof.
  intros Hauthor Hlanguage Hurl Hne Hnet Hstatus n file.
  destruct (download_book_success net b output_dir author language download_url w r)
    as (w' & Hrun & Hdone); try assumption.
  exists w'. eexists. split; [exact Hrun|].
  split; [apply (dl_metadata _ _ _ _ _ _ _ _ _ _ Hdone)|].
  cbn [expected_metadata md_images].
  split; [apply map_ext; intros idx; apply image_entry_explicit|].
  split; [now rewrite length_map, length_seq|].
  intros idx image_url Hidx. subst file. cbn beta.
  rewrite <- image_path_explicit.
  apply (dl_images _ _ _ _ _ _ _ _ _ _ Hdone idx image_url Hidx).
Qed.

Lemma metadata_lists_every_image_witness :
  let cover := Response 200 "" "JFIF" (Return []) "OK" "" in
  let net : network := fun k rq =>
    if String.eqb (rq_url rq) "https://example.org/11.txt"
    then Responded (Response 200 "Down the Rabbit-Hole" "" (Return []) "OK" "")
    else if String.eqb (rq_url rq) "https://example.org/11.cover.jpg"
    then Responded cover
    else Failed "Connection refused" in
  let b := Book (Some "Alice") (Some [Author (Some "Carroll")]) (Some ["en"])
                (Some [("text/plain", "https://example.org/11.txt");
                       ("image/jpeg", "https://example.org/11.cover.jpg");
                       ("image/png", "https://example.org/11.cover.png")]) in
  exists w' md,
    download_book net b "output" (World ∅ ∅ [] 0) = (Return tt, w') /\
    files w' !! "output/Alice - Carroll/metadata.json" = Some (MetadataFile md) /\
    md_images md = ["images/image_1.jpg"; "images/image_2.jpg"] /\
    files w' !! "output/Alice - Carroll/images/image_1.jpg" = Some (BinaryFile "JFIF") /\
    files w' !! "output/Alice - Carroll/images/image_2.jpg" = None.
Proof.
  intros cover net b.
  destruct (metadata_lists_every_image net b "output" "Carroll" "en"
              "https://example.org/11.txt" (World ∅ ∅ [] 0)
              (Response 200 "Down the Rabbit-Hole" "" (Return []) "OK" "")
              eq_refl eq_refl eq_refl ltac:(discriminate) eq_refl eq_refl)
    as (w' & md & Hrun & Hfile & Himages & _ & Hdisk).
  exists w', md. split; [exact Hrun|]. split; [exact Hfile|].
  split; [exact Himages|]. split.
  - exact (Hdisk 0%nat "https://example.org/11.cover.jpg" eq_refl).
  - exact (proj1 (Hdisk 1%nat "https://example.org/11.cover.png" eq_refl)).
Defined.

Section Slicing.

Local Arguments String.append !_ _ / : simpl nomatch.

Lemma replace_char_take (a c : ascii) (k : nat) (s : string) :
  Py.is_continuation a = false -> Py.is_continuation c = false ->
  Py.take k (Py.replace_char a c s) = Py.replace_char a c (Py.take k s).
Proof.
  intros Ha Hc. revert k. induction s as [|d s IH]; intros k; [reflexivity|].
  cbn [Py.replace_char Py.take].
  destruct (Ascii.eqb_spec d a) as [->|Hd].
  - rewrite Hc, Ha. destruct k as [|k]; [reflexivity|].
    cbn [Py.replace_char]. now rewrite Ascii.eqb_refl, IH.
  - destruct (Py.is_continuation d).
    + cbn [Py.replace_char]. destruct (Ascii.eqb_spec d a); [contradiction|].
      now rewrite IH.
    + destruct k as [|k]; [reflexivity|]. cbn [Py.replace_char].
      destruct (Ascii.eqb_spec d a); [contradiction|]. now rewrite IH.
Qed.

Lemma take_len (k : nat) (s : string) : (Py.len (Py.take k s) <= k)%nat.
Proof.
  revert k. induction s as [|d s IH]; intros k; cbn [Py.take Py.len]; [lia|].
  destruct (Py.is_continuation d) eqn:Hd.
  - cbn [Py.len]. rewrite Hd. apply IH.
  - destruct k as [|k]; cbn [Py.len]; [lia|]. rewrite Hd. specialize (IH k). lia.
Qed.

Lemma replace_char_len (a c : ascii) (s : string) :
  Py.is_continuation a = false -> Py.is_continuation c = false ->
  Py.len (Py.replace_char a c s) = Py.len s.
Proof.
  intros Ha Hc. induction s as [|d s IH]; [reflexivity|].
  cbn [Py.replace_char Py.len]. rewrite IH.
  destruct (Ascii.eqb_spec d a) as [->|]; [now rewrite Ha, Hc|reflexivity].
Qed.

Lemma replace_char_length (a c : ascii) (s : string) :
  String.length (Py.replace_char a c s) = String.length s.
Proof. induction s as [|d s IH]; simpl; [reflexivity|]. now rewrite IH. Qed.

Lemma replace_char_get (a c : ascii) (s : string) (i : nat) (d : ascii) :
  String.get i s = Some d ->
  String.get i (Py.replace_char a c s) = Some (if Ascii.eqb d a then c else d).
Proof.
  revert i. induction s as [|e s IH]; intros i; [discriminate|].
  destruct i as [|i]; cbn [String.get Py.replace_char].
  - now intros [= ->].
  - apply IH.
Qed.

Lemma replace_char_gone (a c : ascii) (s : string) :
  a <> c -> Py.char_in a (Py.replace_char a c s) = false.
Proof.
  intros Hne. induction s as [|d s IH]; [reflexivity|].
  cbn [Py.replace_char Py.char_in]. rewrite IH, orb_false_r.
  destruct (Ascii.eqb_spec d a) as [->|Hd].
  - now apply Ascii.eqb_neq.
  - apply Ascii.eqb_neq. congruence.
Qed.

Lemma sanitize_keeps_clean (s : string) :
  Roman.string_forallb (fun c => negb (Py.char_in c reserved)) s = true ->
  sanitize s = s.
Proof.
  unfold sanitize. induction s as [|d s IH]; [reflexivity|].
  cbn [Roman.string_forallb Py.filter]. intros H.
  apply andb_prop in H as [Hd Hs]. now rewrite Hd, (IH Hs).
Qed.

Lemma byte_value (n : N) : (n < 256)%N -> N_of_ascii (Utf8.byte n) = n.
Proof. apply N_ascii_embedding. Qed.

Lemma is_continuation_range (c : ascii) :
  Py.is_continuation c = ((128 <=? N_of_ascii c)%N && (N_of_ascii c <? 192)%N).
Proof. destruct c as [[] [] [] [] [] [] [] []]; reflexivity. Qed.

Lemma lead_byte (n : N) :
  (n < 128 \/ 192 <= n < 256)%N -> Py.is_continuation (Utf8.byte n) = false.
Proof.
  intros H. rewrite is_continuation_range, byte_value by lia.
  destruct (128 <=? n)%N eqn:E1; [|reflexivity].
  destruct (n <? 192)%N eqn:E2; [|reflexivity].
  apply N.leb_le in E1. apply N.ltb_lt in E2. lia.
Qed.

Lemma continuation_byte (n : N) :
  (n < 64)%N -> Py.is_continuation (Utf8.byte (128 + n)) = true.
Proof.
  intros H. rewrite is_continuation_range, byte_value by lia.
  apply andb_true_intro. split; [apply N.leb_le|apply N.ltb_lt]; lia.
Qed.

Lemma encode_point_shape (cp : N) :
  Utf8.valid cp ->
  exists c rest,
    Utf8.encode_point cp = String c rest /\
    Py.is_continuation c = false /\
    Roman.string_forallb Py.is_continuation rest = true.
Proof.
  unfold Utf8.valid, Utf8.encode_point. intros Hcp.
  assert (Hmod : forall n, (n mod 64 < 64)%N) by (intros n; apply N.mod_lt; lia).
  destruct (cp <? 128)%N eqn:E1.
  { apply N.ltb_lt in E1. do 2 eexists. split; [reflexivity|].
    split; [apply lead_byte; lia|reflexivity]. }
  apply N.ltb_ge in E1.
  destruct (cp <? 2048)%N eqn:E2.
  { apply N.ltb_lt in E2. do 2 eexists. split; [reflexivity|]. split.
    - apply lead_byte. right.
      assert (Hq : (cp / 64 < 32)%N) by (apply N.Div0.div_lt_upper_bound; lia).
      revert Hq. generalize (cp / 64)%N. intros q Hq. lia.
    - cbn [Roman.string_forallb]. now rewrite continuation_byte by apply Hmod. }
  apply N.ltb_ge in E2.
  destruct (cp <? 65536)%N eqn:E3.
  { apply N.ltb_lt in E3. do 2 eexists. split; [reflexivity|]. split.
    - apply lead_byte. right.
      assert (Hq : (cp / 4096 < 16)%N) by (apply N.Div0.div_lt_upper_bound; lia).
      revert Hq. generalize (cp / 4096)%N. intros q Hq. lia.
    - cbn [Roman.string_forallb]. now rewrite !continuation_byte by apply Hmod. }
  apply N.ltb_ge in E3.
  do 2 eexists. split; [reflexivity|]. split.
  - apply lead_byte. right.
    assert (Hq : (cp / 262144 < 5)%N) by (apply N.Div0.div_lt_upper_bound; lia).
    revert Hq. generalize (cp / 262144)%N. intros q Hq. lia.
  - cbn [Roman.string_forallb]. now rewrite !continuation_byte by apply Hmod.
Qed.

Lemma take_continuations (k : nat) (rest tail : string) :
  Roman.string_forallb Py.is_continuation rest = true ->
  Py.take k (rest +:+ tail) = rest +:+ Py.take k tail.
Proof.
  induction rest as [|c rest IH]; [reflexivity|].
  cbn [Roman.string_forallb]. intros H. apply andb_prop in H as [Hc Hrest].
  simpl. rewrite Hc. now rewrite (IH Hrest).
Qed.

Lemma take_encode (k : nat) (points : list N) :
  Forall Utf8.valid points ->
  Py.take k (Utf8.encode points) = Utf8.encode (firstn k points).
Proof.
  intros Hall. revert k. induction Hall as [|cp points Hcp _ IH]; intros k.
  - now destruct k.
  - destruct (encode_point_shape cp Hcp) as (c & rest & Henc & Hlead & Hcont).
    cbn [Utf8.encode]. destruct k as [|k]; cbn [firstn Utf8.encode].
    + rewrite Henc. simpl. now rewrite Hlead.
    + rewrite Henc. simpl. rewrite Hlead.
      now rewrite (take_continuations k rest _ Hcont), IH.
Qed.

End Slicing.

Example take_counts_characters :
  Py.take 10 "Truyện Kiều của Nguyễn Du" = "Truyện Kiề" /\
  Py.take 10 "Truyện Kim Vân" = "Truyện Kim" /\
  Py.len "Truyện Kiều" = 11%nat /\
  title_of (Book (Some "Truyện Kiều") None None None)
    <> title_of (Book (Some "Truyện Kim Vân") None None None).
Proof. vm_compute. repeat split. discriminate. Qed.

(** C9: the title used in the names is the first ten characters of the
    record's title (characters, not bytes: the slice of the encoding is
    the encoding of the first ten code points) with every slash turned
    into a hyphen and nothing else changed, so two records that agree
    on those ten characters get the same names; the reserved characters
    are removed after the cut, a string without them being left as it
    is; neither the folder name nor the file name holds a reserved
    character; and a completed download has created the folder of that
    name under the output directory and written the text to the file of
    that name in it. *)
Theorem names_use_first_ten_characters :
  (forall points k, Forall Utf8.valid points ->
     Py.take k (Utf8.encode points) = Utf8.encode (firstn k points)) /\
  (forall b,
     let cut := Py.take 10 (raw_title b) in
     String.length (title_of b) = String.length cut /\
     (forall i c, String.get i cut = Some c ->
        String.get i (title_of b) = Some (if Ascii.eqb c "/" then "-"%char else c)) /\
     Py.char_in "/" (title_of b) = false /\
     (Py.len (title_of b) <= 10)%nat) /\
  (forall b b', Py.take 10 (raw_title b) = Py.take 10 (raw_title b') ->
     forall author,
       folder_name (title_of b) author = folder_name (title_of b') author /\
       file_name (title_of b) author = file_name (title_of b') author) /\
  (forall c title author, Py.char_in c reserved = true ->
     Py.char_in c (folder_name title author) = false /\
     Py.char_in c (file_name title author) = false) /\
  (forall s, Roman.string_forallb (fun c => negb (Py.char_in c reserved)) s = true ->
     sanitize s = s) /\
  (forall (net : network) (b : book) (output_dir author language download_url : string)
          (w : world) (r : response),
     author_of b = Return author ->
     language_of b = Return language ->
     download_url_of b = Some download_url ->
     download_url <> "" ->
     net (clock w) (Request download_url []) = Responded r ->
     is_error_status (status_code r) = false ->
     let name := sanitize (title_of b) +:+ " - " +:+ sanitize author in
     let file := sanitize (title_of b) +:+ "-" +:+ sanitize author +:+ ".html" in
     exists w',
       download_book net b output_dir w = (Return tt, w') /\
       Py.path_join output_dir name ∈ dirs w' /\
       files w' !! Py.path_join (Py.path_join output_dir name) file
         = Some (TextFile (text r))).
Proof.
  assert (Htitle : forall b,
            title_of b = Py.replace_char "/" "-" (Py.take 10 (raw_title b))).
  { intros b. unfold title_of, raw_title. now apply replace_char_take. }
  split; [intros points k; apply take_encode|].
  split; [|split; [|split; [|split]]].
  - intros b cut. subst cut. rewrite Htitle.
    split; [apply replace_char_length|].
    split; [intros i c; apply replace_char_get|].
    split; [now apply replace_char_gone|].
    rewrite replace_char_len by reflexivity. apply take_len.
  - intros b b' Hsame author. rewrite !Htitle, Hsame. split; reflexivity.
  - intros c title author Hc. split.
    + now apply folder_name_clean.
    + now apply file_name_clean.
  - exact sanitize_keeps_clean.
  - intros net b output_dir author language download_url w r
      Hauthor Hlanguage Hurl Hne Hnet Hstatus name file.
    destruct (download_book_success net b output_dir author language download_url w r)
      as (w' & Hrun & Hdone); try assumption.
    exists w'. split; [exact Hrun|]. subst name file. split.
    + apply (dl_folder _ _ _ _ _ _ _ _ _ _ Hdone).
    + apply (dl_content _ _ _ _ _ _ _ _ _ _ Hdone).
Qed.

Lemma names_use_first_ten_characters_witness :
  let net : network := fun _ _ =>
    Responded (Response 200 "Trăm năm trong cõi người ta" "" (Return []) "OK" "") in
  let rock := Book (Some "AC/DC: Let There Be Rock") (Some [Author (Some "Walker")])
                   (Some ["en"]) (Some [("text/plain", "https://example.org/1.txt")]) in
  let kieu := Book (Some "Truyện Kiều của Nguyễn Du") (Some [Author (Some "Nguyễn Du")])
                   (Some ["vi"]) (Some [("text/plain", "https://example.org/2.txt")]) in
  let kieu' := Book (Some "Truyện Kiều (bản 1866)") None None None in
  String.get 2 (Py.take 10 (raw_title rock)) = Some "/"%char /\
  String.get 2 (title_of rock) = Some "-"%char /\
  title_of rock = "AC-DC: Let" /\
  folder_name (title_of rock) "Walker" = "AC-DC Let - Walker" /\
  title_of kieu = "Truyện Kiề" /\
  folder_name (title_of kieu) "X" = folder_name (title_of kieu') "X" /\
  Py.char_in "?" (folder_name "Who? Me?" "A/B") = false /\
  sanitize "Nguyễn Du" = "Nguyễn Du" /\
  exists w',
    download_book net kieu "output" (World ∅ ∅ [] 0) = (Return tt, w') /\
    "output/Truyện Kiề - Nguyễn Du" ∈ dirs w' /\
    files w' !! "output/Truyện Kiề - Nguyễn Du/Truyện Kiề-Nguyễn Du.html"
      = Some (TextFile "Trăm năm trong cõi người ta").
Proof.
  intros net rock kieu kieu'.
  destruct names_use_first_ten_characters
    as (_ & Htitle & Hsame & Hclean & Hkept & Hrun).
  destruct (Htitle rock) as (_ & Hget & _).
  split; [reflexivity|].
  split; [exact (Hget 2%nat "/"%char eq_refl)|].
  split; [reflexivity|]. split; [reflexivity|]. split; [reflexivity|].
  split; [apply (Hsame kieu kieu' ltac:(vm_compute; reflexivity) "X")|].
  split; [apply (Hclean "?"%char "Who? Me?" "A/B" eq_refl)|].
  split; [apply (Hkept "Nguyễn Du" eq_refl)|].
  exact (Hrun net kieu "output" "Nguyễn Du" "vi" "https://example.org/2.txt"
           (World ∅ ∅ [] 0)
           (Response 200 "Trăm năm trong cõi người ta" "" (Return []) "OK" "")
           eq_refl eq_refl eq_refl ltac:(discriminate) eq_refl eq_refl).
Defined.

Lemma download_body_failure (net : network) (b : book)
    (output_dir title author language download_url e : string) (w : world) :
  fetch_error net (clock w) download_url = Some e ->
  download_body net b output_dir title author language download_url w
  = (Raise (RequestException e),
     World (dirs w) (files w) (stdout w) (S (clock w))).
Proof.
  unfold fetch_error, download_body, IO.bind at 1 2, IO.requests_get, IO.lift,
    raise_for_status.
  destruct (net (clock w) (Request download_url [])) as [msg|r].
  - now intros [= ->].
  - destruct (is_error_status (status_code r)); [now intros [= ->]|discriminate].
Qed.

(** Whatever the record, [download_book] touches the file system only
    after a successful fetch of the text. *)
Lemma download_book_untouched (net : network) (b : book) (output_dir : string)
    (w : world) :
  Py.truthy (download_url_of b) = false \/
  (exists e, fetch_error net (clock w) (Py.get_default (download_url_of b) "") = Some e) ->
  dirs (snd (download_book net b output_dir w)) = dirs w /\
  files (snd (download_book net b output_dir w)) = files w.
Proof.
  intros H. unfold download_book, IO.bind, IO.lift.
  destruct (author_of b) as [author| |]; try (split; reflexivity).
  destruct (language_of b) as [language| |]; try (split; reflexivity).
  destruct (Py.truthy (download_url_of b)) eqn:Htruthy; cbn [negb].
  - destruct H as [H|[e He]]; [discriminate|].
    unfold IO.try_except. rewrite (download_body_failure _ _ _ _ _ _ _ e) by exact He.
    split; reflexivity.
  - split; reflexivity.
Qed.

(** C8: when the fetch of the resolved URL fails, in transport or by a
    4xx or 5xx status, the directories and the files are what they were
    before the call, whatever the record; and the call, having reached
    the fetch (lines 51 and 52 gave an author and a language), prints
    one line and returns. *)
Theorem failed_fetch_leaves_no_files (net : network) (b : book)
    (output_dir download_url e : string) (w : world) :
  download_url_of b = Some download_url ->
  download_url <> "" ->
  fetch_error net (clock w) download_url = Some e ->
  (dirs (snd (download_book net b output_dir w)) = dirs w /\
   files (snd (download_book net b output_dir w)) = files w) /\
  (forall author language,
     author_of b = Return author ->
     language_of b = Return language ->
     download_book net b output_dir w
     = (Return tt,
        World (dirs w) (files w)
              (stdout w ++ ["Error downloading " +:+ title_of b +:+ " by " +:+
                            author +:+ ": " +:+ e])
              (S (clock w)))).
Proof.
  intros Hurl Hne Hfetch. split.
  - apply download_book_untouched. right. exists e. now rewrite Hurl.
  - intros author language Hauthor Hlanguage.
    unfold download_book, IO.bind, IO.lift.
    rewrite Hauthor, Hlanguage, Hurl.
    destruct download_url as [|c u]; [contradiction|].
    cbn [Py.truthy negb Py.get_default]. unfold IO.try_except.
    rewrite (download_body_failure _ _ _ _ _ _ _ e) by exact Hfetch.
    reflexivity.
Qed.

Lemma failed_fetch_leaves_no_files_witness :
  let net : network := fun _ _ =>
    Responded (Response 404 "Not Found" "" (Return []) "Not Found"
                        "https://example.org/4300.html") in
  let b := Book (Some "Ulysses") (Some [Author (Some "Joyce, James")]) (Some ["en"])
                (Some [("text/html", "https://example.org/4300.html")]) in
  let w := World {["output"]} ∅ [] 0 in
  download_book net b "output" w
  = (Return tt,
     World {["output"]} ∅
           ["Error downloading Ulysses by Joyce, James: " +:+
            "404 Client Error: Not Found for url: https://example.org/4300.html"] 1).
Proof.
  intros net b w.
  exact (proj2 (failed_fetch_leaves_no_files net b "output"
                  "https://example.org/4300.html"
                  "404 Client Error: Not Found for url: https://example.org/4300.html" w
                  eq_refl ltac:(discriminate) eq_refl)
               "Joyce, James" "en" eq_refl eq_refl).
Defined.

(** ** download_book: where the code and its description part *)

Lemma described_chapter_regex_pattern :
  Re.compile "Chapter\s+\d+" = Some described_chapter_regex.
Proof. reflexivity. Qed.

Lemma chapter_regex_pattern : Re.compile chapter_pattern = Some chapter_regex.
Proof. reflexivity. Qed.

(** C1, as the code has it: the doubled backslashes of the raw literal
    make the pattern ask for a backslash, letters s, a backslash and
    letters d after the word Chapter, so the sample text is not split:
    one segment, one chapter folder [Chapter_I], one entry in the
    [chapters] array.  The described pattern gives the three segments. *)
Theorem sample_text_is_not_split :
  let w' := snd (download_book two_headings_net two_headings_book "output"
                   (World ∅ ∅ [] 0)) in
  chapter_regex
    = map (fun c => Re.One (Re.Lit c)) (list_ascii_of_string "Chapter")
      ++ [Re.One (Re.Lit "\"); Re.Many (Re.Lit "s");
          Re.One (Re.Lit "\"); Re.Many (Re.Lit "d")] /\
  Re.split chapter_regex two_headings = [two_headings] /\
  Re.split described_chapter_regex two_headings
    = ["Intro text "; " body one "; " body two"] /\
  fst (download_book two_headings_net two_headings_book "output" (World ∅ ∅ [] 0))
    = Return tt /\
  (exists md,
     files w' !! "output/Sample - Anon/metadata.json" = Some (MetadataFile md) /\
     md_chapters md = [ChapterEntry "I" "Chapter_I/Chapter_I.txt"]) /\
  ("output/Sample - Anon/Chapter_I" ∈ dirs w') /\
  ("output/Sample - Anon/Chapter_II" ∉ dirs w') /\
  ("output/Sample - Anon/Chapter_III" ∉ dirs w').
Proof.
  cbv zeta.
  split; [reflexivity|]. split; [reflexivity|]. split; [reflexivity|].
  split; [vm_compute; reflexivity|].
  split; [eexists; split; vm_compute; reflexivity|].
  split; [refine (bool_decide_eq_true_1 _ _); vm_compute; reflexivity|].
  split; refine (bool_decide_eq_false_1 _ _); vm_compute; reflexivity.
Qed.

(** C2, as the code has it: line 51 indexes the list of authors and
    line 52 the list of languages before anything is checked, so a
    record whose list is present and empty ends the call with an
    [IndexError], which no [except] clause of the program catches. *)
Theorem empty_list_raises_index_error :
  (forall net title languages formats output_dir w,
     download_book net (Book title (Some []) languages formats) output_dir w
     = (Raise IndexError, w)) /\
  (forall net title formats output_dir w,
     download_book net (Book title None (Some []) formats) output_dir w
     = (Raise IndexError, w)) /\
  (forall net title first others formats output_dir w,
     download_book net (Book title (Some (first :: others)) (Some []) formats)
                   output_dir w
     = (Raise IndexError, w)).
Proof. repeat split. Qed.

(** The skip of lines 55-57, for a record that gets past lines 51-52. *)
Lemma no_format_is_skipped (net : network) (b : book) (output_dir author language : string)
    (w : world) :
  author_of b = Return author ->
  language_of b = Return language ->
  Py.truthy (download_url_of b) = false ->
  download_book net b output_dir w
  = (Return tt,
     World (dirs w) (files w)
           (stdout w ++ ["No downloadable format found for " +:+ title_of b +:+
                         " by " +:+ author])
           (clock w)).
Proof.
  intros Hauthor Hlanguage Hurl. unfold download_book, IO.bind, IO.lift.
  now rewrite Hauthor, Hlanguage, Hurl.
Qed.

(** C7, as the code has it: a record without a text format and with an
    empty list of authors does not reach the check of line 55; the call
    ends with an [IndexError] and prints nothing.  The file system is
    untouched all the same ([download_book_untouched]). *)
Theorem no_format_and_no_author_raises :
  let b := Book (Some "Beowulf") (Some []) (Some ["en"])
                (Some [("application/epub+zip", "https://example.org/16328.epub")]) in
  forall net output_dir w,
    Py.truthy (download_url_of b) = false /\
    download_book net b output_dir w = (Raise IndexError, w).
Proof. intros b net output_dir w. split; reflexivity. Qed.

(** Past lines 51 and 52 the call always returns: the remaining
    failures are caught and printed. *)
Lemma download_book_returns (net : network) (b : book) (output_dir author language : string)
    (w : world) :
  author_of b = Return author ->
  language_of b = Return language ->
  fst (download_book net b output_dir w) = Return tt.
Proof.
  intros Hauthor Hlanguage.
  destruct (Py.truthy (download_url_of b)) eqn:Htruthy.
  - destruct (download_url_of b) as [[|c u]|] eqn:Hurl; try discriminate Htruthy.
    destruct (fetch_error net (clock w) (String c u)) as [e|] eqn:Hfetch.
    + unfold download_book, IO.bind, IO.lift.
      rewrite Hauthor, Hlanguage, Hurl.
      cbn [Py.truthy negb Py.get_default]. unfold IO.try_except.
      now rewrite (download_body_failure _ _ _ _ _ _ _ e) by exact Hfetch.
    + unfold fetch_error in Hfetch.
      destruct (net (clock w) (Request (String c u) [])) as [msg|r] eqn:Hnet;
        [discriminate|].
      destruct (is_error_status (status_code r)) eqn:Hstatus; [discriminate|].
      destruct (download_book_success net b output_dir author language (String c u) w r)
        as (w' & Hrun & _); try assumption; [discriminate|].
      now rewrite Hrun.
  - now rewrite (no_format_is_skipped net b output_dir author language w).
Qed.

(** * Further properties *)

(** ** roman_numeral beyond 3999 *)

Section RomanLarge.

Import Roman.

Local Arguments String.append !_ _ / : simpl nomatch.

Lemma for_range_exact (k : nat) (st : state) (v : Z) (s : string) :
  val !! st_i st = Some v ->
  syms !! st_i st = Some s ->
  for_range k st
  = Return (State (st_n st - Z.of_nat k * v) (st_i st)
                  (st_roman st +:+ repeat_string s k)).
Proof.
  revert st. induction k as [|k IH]; intros [n i r] Hv Hs; cbn [st_n st_i st_roman] in *.
  - simpl. rewrite append_nil_r. f_equal. f_equal. lia.
  - cbn [for_range]. unfold getitem. cbn [st_i st_n st_roman]. rewrite Hs, Hv.
    cbn [Outcome.bind]. rewrite (IH (State (n - v) i (r +:+ s)) Hv Hs).
    cbn [st_n st_i st_roman repeat_string]. rewrite append_assoc.
    f_equal. f_equal. lia.
Qed.

Lemma for_range_prefix (p : string) (k : nat) (st st' : state) :
  for_range k st = Return st' ->
  for_range k (State (st_n st) (st_i st) (p +:+ st_roman st))
  = Return (State (st_n st') (st_i st') (p +:+ st_roman st')).
Proof.
  revert st. induction k as [|k IH]; intros [n i r]; cbn [for_range st_n st_i st_roman].
  - now intros [= <-].
  - destruct (getitem syms i) as [s| |]; cbn [Outcome.bind]; try discriminate.
    destruct (getitem val i) as [v| |]; cbn [Outcome.bind]; try discriminate.
    intros H. apply IH in H. cbn [st_n st_i st_roman] in H.
    now rewrite append_assoc.
Qed.

Lemma while_loop_prefix (p : string) (fuel : nat) (st st' : state) :
  while_loop fuel st = Return st' ->
  while_loop fuel (State (st_n st) (st_i st) (p +:+ st_roman st))
  = Return (State (st_n st') (st_i st') (p +:+ st_roman st')).
Proof.
  revert st. induction fuel as [|fuel IH]; intros [n i r];
    cbn [while_loop st_n st_i st_roman]; [discriminate|].
  destruct (0 <? n); [|now intros [= <-]].
  destruct (getitem val i) as [v| |]; cbn [Outcome.bind]; try discriminate.
  destruct (for_range (Z.to_nat (n / v)) (State n i r)) as [st1| |] eqn:Hfor;
    cbn [Outcome.bind]; try discriminate.
  apply (for_range_prefix p) in Hfor. cbn [st_n st_i st_roman] in Hfor.
  rewrite Hfor. cbn [Outcome.bind st_n st_i st_roman].
  intros H. apply IH in H. exact H.
Qed.

Lemma while_loop_step (fuel : nat) (st : state) :
  while_loop (S fuel) st
  = if 0 <? st_n st then
      (v <- getitem val (st_i st) ;;
       st' <- for_range (Z.to_nat (st_n st / v)) st ;;
       while_loop fuel (State (st_n st') (S (st_i st')) (st_roman st')))%outcome
    else Return st.
Proof. reflexivity. Qed.

Lemma roman_below_thousand (m : Z) :
  0 <= m < 1000 ->
  exists st, while_loop 13 (State m 1 "") = Return st /\ roman m = st_roman st.
Proof.
  intros Hm.
  destruct (while_loop_finishes 13 (State m 1 "")) as (st & Hrun & _);
    cbn [st_i st_n]; try lia.
  exists st. split; [exact Hrun|].
  unfold roman, roman_numeral, run, enough.
  change (S (length val)) with 14%nat. rewrite while_loop_step.
  cbn [st_n st_i st_roman].
  destruct (0 <? m) eqn:Hpos.
  - change (getitem val 0) with (Return (A := Z) 1000). cbn [Outcome.bind].
    rewrite Z.div_small by lia. change (Z.to_nat 0) with 0%nat.
    cbn [for_range Outcome.bind st_n st_i st_roman].
    rewrite Hrun. reflexivity.
  - apply Z.ltb_ge in Hpos. assert (m = 0) by lia. subst m.
    cbn in Hrun. injection Hrun as <-. reflexivity.
Qed.

Lemma roman_thousands (n : Z) :
  0 <= n ->
  roman n = repeat_string "M" (Z.to_nat (n / 1000)) +:+ roman (n mod 1000).
Proof.
  intros Hn.
  pose proof (Z.mod_pos_bound n 1000 ltac:(lia)) as Hm.
  destruct (roman_below_thousand (n mod 1000) Hm) as (st & Hrun & ->).
  destruct (0 <? n) eqn:Hpos.
  - unfold roman, roman_numeral, run, enough.
    change (S (length val)) with 14%nat. rewrite while_loop_step.
    cbn [st_n st_i st_roman].
    rewrite Hpos. change (getitem val 0) with (Return (A := Z) 1000).
    cbn [Outcome.bind].
    rewrite (for_range_exact _ _ 1000 "M") by reflexivity.
    cbn [Outcome.bind st_n st_i st_roman].
    assert (Hq : 0 <= n / 1000) by (apply Z.div_pos; lia).
    rewrite Z2Nat.id by exact Hq.
    replace (n - n / 1000 * 1000) with (n mod 1000)
      by (rewrite Z.mod_eq by lia; lia).
    apply (while_loop_prefix (repeat_string "M" (Z.to_nat (n / 1000)))) in Hrun.
    cbn [st_n st_i st_roman] in Hrun. rewrite append_nil_r in Hrun.
    cbn [String.append]. rewrite Hrun. reflexivity.
  - apply Z.ltb_ge in Hpos. assert (n = 0) by lia. subst n.
    cbn in Hrun. injection Hrun as <-. reflexivity.
Qed.

End RomanLarge.

Section RomanReader.

Import Roman.

Local Arguments String.append !_ _ / : simpl nomatch.

Lemma parse_values_append (a b : string) (va vb : list Z) :
  parse_values a = Some va -> parse_values b = Some vb ->
  parse_values (a +:+ b) = Some (va ++ vb).
Proof.
  revert va. induction a as [|c a IH]; intros va; simpl.
  - now intros [= <-].
  - destruct (symbol_value c) as [v|]; [|discriminate].
    destruct (parse_values a) as [vs|]; [|discriminate].
    intros [= <-] Hb. now rewrite (IH vs eq_refl Hb).
Qed.

Lemma parse_values_thousands (k : nat) :
  parse_values (repeat_string "M" k) = Some (repeat 1000 k).
Proof. induction k as [|k IH]; simpl; [reflexivity|]. now rewrite IH. Qed.

Lemma symbol_value_bound (c : ascii) (v : Z) : symbol_value c = Some v -> v <= 1000.
Proof.
  destruct c as [[] [] [] [] [] [] [] []]; simpl; intros [= <-]; lia.
Qed.

Lemma parse_values_bound (s : string) (vs : list Z) :
  parse_values s = Some vs -> Forall (fun v => v <= 1000) vs.
Proof.
  revert vs. induction s as [|c s IH]; intros vs; simpl.
  - intros [= <-]. constructor.
  - destruct (symbol_value c) as [v|] eqn:Hc; [|discriminate].
    destruct (parse_values s) as [vs'|]; [|discriminate].
    intros [= <-]. constructor; [now apply (symbol_value_bound c)|now apply IH].
Qed.

Lemma sum_values_thousands (k : nat) (vs : list Z) :
  Forall (fun v => v <= 1000) vs ->
  sum_values (repeat 1000 k ++ vs) = 1000 * Z.of_nat k + sum_values vs.
Proof.
  intros Hvs. induction k as [|k IH]; [simpl; lia|].
  change (repeat 1000 (S k) ++ vs) with (1000 :: (repeat 1000 k ++ vs)).
  cbn [sum_values]. rewrite IH.
  destruct (repeat 1000 k ++ vs) as [|w rest] eqn:E.
  - destruct k; [|discriminate E]. simpl in E. subst vs. simpl. lia.
  - assert (Hw : w <= 1000).
    { destruct k as [|k']; simpl in E.
      - subst vs. now inversion Hvs.
      - injection E as <- _. lia. }
    destruct (1000 <? w) eqn:Hlt; [apply Z.ltb_lt in Hlt; lia|lia].
Qed.

Lemma string_forallb_append (p : ascii -> bool) (a b : string) :
  string_forallb p (a +:+ b) = string_forallb p a && string_forallb p b.
Proof.
  induction a as [|c a IH]; simpl; [reflexivity|].
  now rewrite IH, andb_assoc.
Qed.

Lemma thousands_in_alphabet (k : nat) :
  string_forallb roman_alphabet (repeat_string "M" k) = true.
Proof. induction k as [|k IH]; simpl; [reflexivity|exact IH]. Qed.

Lemma roman_below_thousand_reads (m : Z) :
  0 <= m < 1000 ->
  string_forallb roman_alphabet (roman m) = true /\ from_roman (roman m) = Some m.
Proof.
  intros Hm. destruct (Z.eq_dec m 0) as [->|Hne]; [split; reflexivity|].
  pose proof round_trip_upto_3999 as Hall.
  rewrite forallb_forall in Hall.
  assert (Hin : In m (map Z.of_nat (seq 1 3999))).
  { apply in_map_iff. exists (Z.to_nat m). split; [lia|]. apply in_seq. lia. }
  specialize (Hall m Hin). unfold round_trip in Hall. unfold roman.
  destruct (roman_numeral m) as [s| |]; try discriminate.
  apply andb_prop in Hall as [Halpha Hback]. split; [exact Halpha|].
  destruct (from_roman s) as [m'|]; [|discriminate].
  apply Z.eqb_eq in Hback. congruence.
Qed.

Lemma roman_reads_back (n : Z) :
  0 <= n ->
  string_forallb roman_alphabet (roman n) = true /\ from_roman (roman n) = Some n.
Proof.
  intros Hn. rewrite (roman_thousands n Hn).
  pose proof (Z.mod_pos_bound n 1000 ltac:(lia)) as Hm.
  destruct (roman_below_thousand_reads (n mod 1000) Hm) as [Halpha Hback].
  split.
  - now rewrite string_forallb_append, thousands_in_alphabet, Halpha.
  - unfold from_roman in *.
    destruct (parse_values (roman (n mod 1000))) as [vs|] eqn:Hvs; [|discriminate].
    rewrite (parse_values_append _ _ _ vs (parse_values_thousands _) Hvs).
    rewrite sum_values_thousands by now apply (parse_values_bound (roman (n mod 1000))).
    injection Hback as Hback. rewrite Hback. f_equal.
    assert (Hq : 0 <= n / 1000) by (apply Z.div_pos; lia).
    rewrite Z2Nat.id by exact Hq.
    rewrite (Z.div_mod n 1000) at 3 by lia. lia.
Qed.

Lemma roman_inj (a b : Z) : 0 <= a -> 0 <= b -> roman a = roman b -> a = b.
Proof.
  intros Ha Hb Heq.
  destruct (roman_reads_back a Ha) as [_ Hra].
  destruct (roman_reads_back b Hb) as [_ Hrb].
  rewrite Heq in Hra. congruence.
Qed.

Lemma alphabet_no_slash (s : string) :
  string_forallb roman_alphabet s = true -> Py.char_in "/" s = false.
Proof.
  induction s as [|c s IH]; [reflexivity|].
  cbn [string_forallb Py.char_in].
  intros H. apply andb_prop in H as [Hc Hs]. rewrite (IH Hs), orb_false_r.
  destruct (Ascii.eqb_spec "/" c) as [<-|]; [discriminate Hc|reflexivity].
Qed.

End RomanReader.

(** X1: the round trip holds without an upper bound: for every integer
    from 1 on, [roman_numeral] returns a string over M, D, C, L, X, V,
    I that the standard reader maps back to the integer. *)
Theorem roman_numeral_round_trip_unbounded (n : Z) :
  1 <= n ->
  exists s, Roman.roman_numeral n = Return s /\
            Roman.string_forallb Roman.roman_alphabet s = true /\
            Roman.from_roman s = Some n.
Proof.
  intros Hn. exists (Roman.roman n). split; [apply roman_numeral_total|].
  apply roman_reads_back. lia.
Qed.

Lemma roman_numeral_round_trip_unbounded_witness :
  exists s, Roman.roman_numeral 12345 = Return s /\
            Roman.string_forallb Roman.roman_alphabet s = true /\
            Roman.from_roman s = Some 12345.
Proof. apply (roman_numeral_round_trip_unbounded 12345). lia. Defined.

(** X2: different positive integers get different numerals, and no
    positive integer gets the empty string, so the chapter folders of
    one book never share a name. *)
Theorem roman_numeral_injective (a b : Z) :
  1 <= a -> 1 <= b ->
  Roman.roman_numeral a <> Return "" /\
  (Roman.roman_numeral a = Roman.roman_numeral b -> a = b).
Proof.
  intros Ha Hb. rewrite !roman_numeral_total. split.
  - intros [= Hempty].
    destruct (roman_reads_back a ltac:(lia)) as [_ Hback].
    rewrite Hempty in Hback. cbn in Hback. injection Hback as Hback. lia.
  - intros [= Heq]. apply roman_inj; [lia|lia|exact Heq].
Qed.

Lemma roman_numeral_injective_witness :
  Roman.roman_numeral 4 <> Return "" /\
  (Roman.roman_numeral 4 = Roman.roman_numeral 6 -> 4 = 6).
Proof. apply (roman_numeral_injective 4 6); lia. Defined.

(** X3: no upper bound is enforced: for a non-negative [n] the result
    is the letter M repeated [n // 1000] times followed by the numeral
    of [n % 1000], so its length grows with [n]. *)
Theorem roman_numeral_thousands (n : Z) :
  0 <= n ->
  exists rest,
    Roman.roman_numeral (n mod 1000) = Return rest /\
    Roman.roman_numeral n
    = Return (repeat_string "M" (Z.to_nat (n / 1000)) +:+ rest).
Proof.
  intros Hn. exists (Roman.roman (n mod 1000)).
  split; [apply roman_numeral_total|].
  rewrite roman_numeral_total. f_equal. now apply roman_thousands.
Qed.

Lemma roman_numeral_thousands_witness :
  exists rest,
    Roman.roman_numeral (5004 mod 1000) = Return rest /\
    Roman.roman_numeral 5004
    = Return (repeat_string "M" (Z.to_nat (5004 / 1000)) +:+ rest).
Proof. apply (roman_numeral_thousands 5004). lia. Defined.

(** ** The split of line 78 on ordinary text *)

Section SplitSource.

Local Arguments String.append !_ _ / : simpl nomatch.

Lemma match_here_literal (p : string) (r : Re.regex) (s : string) (k : nat) :
  Re.match_here (map (fun c => Re.One (Re.Lit c)) (list_ascii_of_string p) ++ r) s
    = Some k ->
  exists s' k', s = p +:+ s' /\ Re.match_here r s' = Some k'.
Proof.
  revert s k. induction p as [|c p IH]; intros s k; cbn [list_ascii_of_string map app].
  - intros H. exists s, k. split; [reflexivity|exact H].
  - cbn [Re.match_here]. destruct s as [|d s]; [discriminate|].
    cbn [Re.accepts]. destruct (Ascii.eqb_spec d c) as [->|]; [|discriminate].
    destruct (Re.match_here _ s) as [k1|] eqn:Hrest; [|discriminate].
    intros _. destruct (IH s k1 Hrest) as (s' & k' & -> & Hr).
    exists s', k'. split; [reflexivity|exact Hr].
Qed.

Lemma chapter_match_has_backslash (s : string) (k : nat) :
  Re.match_here chapter_regex s = Some k -> Py.char_in "\" s = true.
Proof.
  intros H.
  apply (match_here_literal "Chapter"
           [Re.One (Re.Lit "\"); Re.Many (Re.Lit "s");
            Re.One (Re.Lit "\"); Re.Many (Re.Lit "d")]) in H.
  destruct H as (s' & k' & -> & Hr).
  rewrite char_in_append. apply orb_true_intro. right.
  destruct s' as [|d s']; [discriminate Hr|].
  cbn [Re.match_here Re.accepts] in Hr.
  destruct (Ascii.eqb_spec d "\") as [->|]; [reflexivity|discriminate Hr].
Qed.

Lemma chapter_search_needs_backslash (s : string) :
  Py.char_in "\" s = false -> Re.search chapter_regex s = false.
Proof.
  induction s as [|c s IH]; intros H.
  - reflexivity.
  - cbn [Re.search].
    destruct (Re.match_here chapter_regex (String c s)) as [k|] eqn:Hm.
    + apply chapter_match_has_backslash in Hm. congruence.
    + apply IH. cbn [Py.char_in] in H. now apply orb_false_elim in H.
Qed.

End SplitSource.

(** X4: the pattern of line 78 needs a backslash after the word
    Chapter, so a text without a backslash is never split, whatever
    headings it has: it is its own single segment, and the download
    records one chapter, numbered I. *)
Theorem text_without_backslash_is_one_chapter :
  (forall body, Py.char_in "\" body = false ->
                Re.split chapter_regex body = [body]) /\
  (forall (net : network) (b : book) (output_dir author language download_url : string)
          (w : world) (r : response),
     author_of b = Return author ->
     language_of b = Return language ->
     download_url_of b = Some download_url ->
     download_url <> "" ->
     net (clock w) (Request download_url []) = Responded r ->
     is_error_status (status_code r) = false ->
     Py.char_in "\" (text r) = false ->
     exists w' md,
       download_book net b output_dir w = (Return tt, w') /\
       files w' !! metadata_path output_dir (title_of b) author
         = Some (MetadataFile md) /\
       md_chapters md = [ChapterEntry "I" "Chapter_I/Chapter_I.txt"]).
Proof.
  assert (Hsplit : forall body, Py.char_in "\" body = false ->
                                Re.split chapter_regex body = [body]).
  { intros body H. unfold Re.split.
    now rewrite split_from_no_match by now apply chapter_search_needs_backslash. }
  split; [exact Hsplit|].
  intros net b output_dir author language download_url w r
    Hauthor Hlanguage Hurl Hne Hnet Hstatus Hplain.
  destruct (download_book_success net b output_dir author language download_url w r)
    as (w' & Hrun & Hdone); try assumption.
  exists w'. eexists. split; [exact Hrun|].
  split; [apply (dl_metadata _ _ _ _ _ _ _ _ _ _ Hdone)|].
  cbn [expected_metadata md_chapters]. now rewrite (Hsplit _ Hplain).
Qed.

Lemma text_without_backslash_is_one_chapter_witness :
  let body := "CHAPTER 1 Loomings Chapter 2 The Carpet-Bag Chapter  3 The Spouter-Inn" in
  let net : network := fun _ _ => Responded (Response 200 body "" (Return []) "OK" "") in
  let b := Book (Some "Moby Dick") (Some [Author (Some "Melville")]) (Some ["en"])
                (Some [("text/plain", "https://example.org/2701.txt")]) in
  Re.split chapter_regex body = [body] /\
  exists w' md,
    download_book net b "output" (World ∅ ∅ [] 0) = (Return tt, w') /\
    files w' !! metadata_path "output" (title_of b) "Melville" = Some (MetadataFile md) /\
    md_chapters md = [ChapterEntry "I" "Chapter_I/Chapter_I.txt"].
Proof.
  intros body net b.
  destruct text_without_backslash_is_one_chapter as [Hsplit Hrun].
  split; [apply Hsplit; reflexivity|].
  exact (Hrun net b "output" "Melville" "en" "https://example.org/2701.txt"
           (World ∅ ∅ [] 0) (Response 200 body "" (Return []) "OK" "")
           eq_refl eq_refl eq_refl ltac:(discriminate) eq_refl eq_refl eq_refl).
Defined.

(** ** The files of a completed download *)

Section ChapterFiles.

Local Arguments String.append !_ _ / : simpl nomatch.

Variables output_dir title author : string.

Lemma sep_split (a b x y : string) :
  Py.char_in "/" a = false -> Py.char_in "/" b = false ->
  a +:+ String "/" x = b +:+ String "/" y -> a = b.
Proof.
  revert b. induction a as [|c a IH]; intros [|d b] Ha Hb H; simpl in *.
  - reflexivity.
  - injection H as <- _. simpl in Hb. discriminate.
  - injection H as -> _. simpl in Ha. discriminate.
  - injection H as -> H. apply orb_false_elim in Ha as [_ Ha].
    apply orb_false_elim in Hb as [_ Hb]. f_equal. now apply IH.
Qed.

Lemma chapter_path_exact (r : string) :
  Py.char_in "/" r = false ->
  chapter_path output_dir title author r r
  = book_folder output_dir title author
      +:+ "/Chapter_" +:+ r +:+ "/Chapter_" +:+ r +:+ ".txt".
Proof.
  intros Hr. unfold chapter_path.
  rewrite (under_book_folder output_dir title author ("Chapter_" +:+ r)) by reflexivity.
  rewrite path_join_under; try reflexivity.
  - now rewrite !append_assoc.
  - intros H. apply (f_equal String.length) in H. rewrite !length_append in H.
    simpl in H. lia.
  - rewrite endswith_append by discriminate.
    rewrite endswith_append by discriminate.
    apply no_sep_endswith. rewrite char_in_append, Hr. reflexivity.
Qed.

Lemma roman_no_slash (i : nat) : Py.char_in "/" (Roman.roman (Z.of_nat i + 1)) = false.
Proof. apply alphabet_no_slash, roman_reads_back. lia. Qed.

Lemma chapter_file_inj (i j : nat) :
  chapter_file output_dir title author i = chapter_file output_dir title author j ->
  i = j.
Proof.
  unfold chapter_file. rewrite !chapter_path_exact by apply roman_no_slash.
  intros H. apply (inj (String.app _)) in H.
  apply (inj (String.app "/Chapter_")) in H.
  apply sep_split in H; try apply roman_no_slash.
  apply roman_inj in H; lia.
Qed.

Lemma chapter_file_inside (i : nat) :
  inside (book_folder output_dir title author) (chapter_file output_dir title author i).
Proof.
  unfold chapter_file.
  destruct (chapter_path_eq output_dir title author
              (Roman.roman (Z.of_nat i + 1)) (Roman.roman (Z.of_nat i + 1)))
    as (tail & -> & _).
  now eexists.
Qed.

Lemma chapter_file_not_metadata (i : nat) :
  chapter_file output_dir title author i <> metadata_path output_dir title author.
Proof.
  unfold chapter_file.
  destruct (chapter_path_eq output_dir title author
              (Roman.roman (Z.of_nat i + 1)) (Roman.roman (Z.of_nat i + 1)))
    as (tail & -> & _).
  rewrite metadata_path_eq. intros H.
  apply (inj (String.app _)) in H. apply (inj (String.app "/")) in H.
  discriminate H.
Qed.

Lemma chapters_loop_files (l : list string) (i : nat) (w w' : world) :
  IO.for_enumerate (chapter_body (book_folder output_dir title author)) i l w
    = (Return tt, w') ->
  (forall p, (forall k, (i <= k)%nat -> p <> chapter_file output_dir title author k) ->
             files w' !! p = files w !! p) /\
  (forall j seg, l !! j = Some seg ->
     files w' !! chapter_file output_dir title author (i + j) = Some (TextFile seg)).
Proof.
  revert i w. induction l as [|seg0 l IH]; intros i w; cbn [IO.for_enumerate].
  - intros [= <-]. split; [reflexivity|]. intros j seg H. discriminate H.
  - unfold IO.bind. rewrite chapter_body_eq. intros Hrun.
    apply IH in Hrun as [Hframe Hheld]. cbn [files] in Hframe.
    fold (chapter_file output_dir title author i) in Hframe.
    split.
    + intros p Hp. rewrite Hframe by (intros k Hk; apply Hp; lia).
      apply lookup_insert_ne. intros Heq. symmetry in Heq. now apply (Hp i).
    + intros [|j] seg Hj.
      * injection Hj as <-. rewrite Nat.add_0_r.
        rewrite Hframe by (intros k Hk Heq; apply chapter_file_inj in Heq; lia).
        apply lookup_insert_eq.
      * replace (i + S j)%nat with (S i + j)%nat by lia. now apply Hheld.
Qed.

Lemma entry_path_resolves (i : nat) :
  Py.path_join (book_folder output_dir title author)
               (chapter_file_path (chapter_entry_at i))
  = chapter_file output_dir title author i.
Proof.
  unfold chapter_file. rewrite chapter_path_exact by apply roman_no_slash.
  unfold chapter_entry_at. cbn [chapter_file_path].
  rewrite (path_join_under ("Chapter_" +:+ _)); try reflexivity.
  - rewrite under_book_folder by reflexivity. now rewrite !append_assoc.
  - discriminate.
  - apply no_sep_endswith. rewrite char_in_append, roman_no_slash. reflexivity.
Qed.

Lemma image_entry_resolves (idx : nat) :
  Py.path_join (book_folder output_dir title author) (image_entry_of idx)
  = image_path output_dir title author idx.
Proof.
  rewrite image_path_eq, under_book_folder by reflexivity. reflexivity.
Qed.

End ChapterFiles.

Section DownloadFiles.

Lemma download_body_files (net : network) (b : book)
    (output_dir title author language download_url : string) (w w' : world)
    (r : response) :
  net (clock w) (Request download_url []) = Responded r ->
  is_error_status (status_code r) = false ->
  download_body net b output_dir title author language download_url w
    = (Return tt, w') ->
  (forall j seg, Re.split chapter_regex (text r) !! j = Some seg ->
     files w' !! chapter_file output_dir title author j = Some (TextFile seg)) /\
  (forall p, ~ inside (book_folder output_dir title author) p ->
     files w' !! p = files w !! p).
Proof.
  intros Hnet Hstatus.
  unfold download_body, IO.bind at 1 2, IO.requests_get, IO.lift, raise_for_status.
  rewrite Hnet, Hstatus.
  unfold IO.bind at 1, IO.makedirs at 1.
  unfold IO.bind at 1, IO.write_file at 1.
  unfold IO.bind at 1. cbn [dirs files stdout clock].
  fold (book_folder output_dir title author).
  fold (content_path output_dir title author).
  match goal with |- context [IO.for_enumerate _ _ _ ?w1] =>
    destruct (chapters_loop output_dir title author
                (Re.split chapter_regex (text r)) 0 w1)
      as (w2 & Hrun2 & _)
  end.
  rewrite Hrun2.
  apply chapters_loop_files in Hrun2 as [Hframe2 Hheld2].
  cbn [dirs files stdout clock] in *.
  unfold IO.bind at 1, IO.makedirs at 1.
  unfold IO.bind at 1. cbn [dirs files stdout clock].
  fold (images_folder output_dir title author).
  match goal with |- context [IO.for_enumerate _ _ _ ?w3] =>
    destruct (images_loop net (images_folder output_dir title author) title author
                (image_urls_of b) 0 w3)
      as (w4 & Hrun4 & _ & _ & _ & Hframe4 & _)
  end.
  rewrite Hrun4. cbn [dirs files stdout clock] in *.
  unfold IO.bind at 1. rewrite chapters_comprehension.
  unfold IO.bind at 1, IO.write_file at 1, IO.print.
  fold (metadata_path output_dir title author).
  cbn [dirs files stdout clock] in *.
  intros [= <-]. cbn [files]. split.
  - intros j seg Hj.
    rewrite lookup_insert_ne
      by (intros Heq; symmetry in Heq; now apply chapter_file_not_metadata in Heq).
    rewrite Hframe4.
    + apply (Hheld2 j seg Hj).
    + intros k _ Heq. fold (image_path output_dir title author k) in Heq.
      symmetry in Heq. now apply image_not_chapter in Heq.
  - intros p Hout.
    rewrite lookup_insert_ne.
    2:{ intros <-. apply Hout. rewrite metadata_path_eq. now eexists. }
    rewrite Hframe4.
    2:{ intros k _ ->. apply Hout.
        fold (image_path output_dir title author k). rewrite image_path_eq.
        now eexists. }
    rewrite Hframe2.
    2:{ intros k _ ->. apply Hout, chapter_file_inside. }
    apply lookup_insert_ne. intros <-. apply Hout.
    rewrite content_path_eq. now eexists.
Qed.

End DownloadFiles.

(** X5: what [metadata.json] points to is on disk.  After a completed
    download, [local_file_path] is a file that holds the fetched text,
    and entry [j] of [chapters] carries the numeral of [j+1] and a
    path which, taken from the book folder, is a file that holds
    segment [j] of the split. *)
Theorem metadata_entries_resolve (net : network) (b : book)
    (output_dir author language download_url : string) (w : world) (r : response) :
  author_of b = Return author ->
  language_of b = Return language ->
  download_url_of b = Some download_url ->
  download_url <> "" ->
  net (clock w) (Request download_url []) = Responded r ->
  is_error_status (status_code r) = false ->
  exists w' md,
    download_book net b output_dir w = (Return tt, w') /\
    files w' !! metadata_path output_dir (title_of b) author = Some (MetadataFile md) /\
    files w' !! md_local_file_path md = Some (TextFile (text r)) /\
    (forall j seg, Re.split chapter_regex (text r) !! j = Some seg ->
       exists entry,
         md_chapters md !! j = Some entry /\
         Roman.roman_numeral (Z.of_nat j + 1) = Return (chapter_number entry) /\
         files w' !! Py.path_join (book_folder output_dir (title_of b) author)
                                  (chapter_file_path entry)
           = Some (TextFile seg)).
Proof.
  intros Hauthor Hlanguage Hurl Hne Hnet Hstatus.
  destruct (download_book_success net b output_dir author language download_url w r)
    as (w' & Hrun & Hdone); try assumption.
  assert (Hbody : download_body net b output_dir (title_of b) author language
                    download_url w = (Return tt, w')).
  { destruct (download_body_success net b output_dir (title_of b) author language
                download_url w r Hnet Hstatus) as (w'' & Hbody & _).
    revert Hrun. unfold download_book, IO.bind, IO.lift.
    rewrite Hauthor, Hlanguage, Hurl.
    destruct download_url as [|c u]; [contradiction|].
    cbn [Py.truthy negb Py.get_default]. unfold IO.try_except.
    rewrite Hbody. now intros [= <-]. }
  destruct (download_body_files _ _ _ _ _ _ _ _ _ _ Hnet Hstatus Hbody) as [Hheld _].
  exists w'. eexists. split; [exact Hrun|].
  split; [apply (dl_metadata _ _ _ _ _ _ _ _ _ _ Hdone)|].
  cbn [expected_metadata md_local_file_path md_chapters].
  split; [apply (dl_content _ _ _ _ _ _ _ _ _ _ Hdone)|].
  intros j seg Hj. exists (chapter_entry_at j). split; [|split].
  - rewrite list_lookup_fmap, lookup_seq_lt; [reflexivity|].
    now apply lookup_lt_Some in Hj.
  - apply roman_numeral_total.
  - rewrite entry_path_resolves. now apply Hheld.
Qed.

Lemma metadata_entries_resolve_witness :
  let body := "Preface Chapter\s\d One Chapter\ss\dd Two" in
  let net : network := fun _ _ => Responded (Response 200 body "" (Return []) "OK" "") in
  let b := Book (Some "Escapes") (Some [Author (Some "Anon")]) (Some ["en"])
                (Some [("text/html", "https://example.org/7.html")]) in
  exists w' md entry,
    download_book net b "output" (World ∅ ∅ [] 0) = (Return tt, w') /\
    files w' !! md_local_file_path md = Some (TextFile body) /\
    md_chapters md !! 1%nat = Some entry /\
    Roman.roman_numeral 2 = Return (chapter_number entry) /\
    files w' !! Py.path_join (book_folder "output" (title_of b) "Anon")
                             (chapter_file_path entry)
      = Some (TextFile " One ").
Proof.
  intros body net b.
  destruct (metadata_entries_resolve net b "output" "Anon" "en"
              "https://example.org/7.html" (World ∅ ∅ [] 0)
              (Response 200 body "" (Return []) "OK" "")
              eq_refl eq_refl eq_refl ltac:(discriminate) eq_refl eq_refl)
    as (w' & md & Hrun & Hmeta & Hcontent & Hchapters).
  destruct (Hchapters 1%nat " One " eq_refl) as (entry & Hentry & Hnumber & Hfile).
  exists w', md, entry.
  split; [exact Hrun|]. split; [exact Hcontent|]. split; [exact Hentry|].
  split; [exact Hnumber|exact Hfile].
Defined.

Section DownloadCases.

Lemma download_book_reaches_body (net : network) (b : book)
    (output_dir author language : string) (c : ascii) (u : string) (w : world) :
  author_of b = Return author ->
  language_of b = Return language ->
  download_url_of b = Some (String c u) ->
  download_book net b output_dir w
  = IO.try_except
      (download_body net b output_dir (title_of b) author language (String c u))
      (fun e =>
         IO.print ("Error downloading " +:+ title_of b +:+ " by " +:+ author +:+
                   ": " +:+ e)) w.
Proof.
  intros Hauthor Hlanguage Hurl. unfold download_book, IO.bind, IO.lift.
  now rewrite Hauthor, Hlanguage, Hurl.
Qed.

Lemma download_book_raises_early (net : network) (b : book) (output_dir : string)
    (w : world) (e : exn) :
  author_of b = Raise e \/
  (exists author, author_of b = Return author /\ language_of b = Raise e) ->
  download_book net b output_dir w = (Raise e, w).
Proof.
  unfold download_book, IO.bind, IO.lift.
  intros [H|(author & Hauthor & H)].
  - now rewrite H.
  - now rewrite Hauthor, H.
Qed.

Lemma fetch_error_none (net : network) (k : nat) (url : string) :
  fetch_error net k url = None ->
  exists r, net k (Request url []) = Responded r /\
            is_error_status (status_code r) = false.
Proof.
  unfold fetch_error. destruct (net k (Request url [])) as [msg|r]; [discriminate|].
  destruct (is_error_status (status_code r)) eqn:E; [discriminate|].
  intros _. now exists r.
Qed.

Lemma author_of_cases (b : book) :
  (exists author, author_of b = Return author) \/ author_of b = Raise IndexError.
Proof.
  unfold author_of, getitem.
  destruct (Py.get_default (b_authors b) [Author None]) as [|first rest]; cbn.
  - now right.
  - left. now eexists.
Qed.

Lemma language_of_cases (b : book) :
  (exists language, language_of b = Return language) \/
  language_of b = Raise IndexError.
Proof.
  unfold language_of, getitem.
  destruct (Py.get_default (b_languages b) ["Unknown"]) as [|first rest]; cbn.
  - now right.
  - left. now eexists.
Qed.

End DownloadCases.

(** X6: [download_book] writes nowhere but inside the book folder: a
    path that is not inside the folder named after the record's title
    and first author holds after the call what it held before,
    whatever the record, the network and the outcome. *)
Theorem writes_stay_inside_book_folder (net : network) (b : book)
    (output_dir : string) (w : world) (p : string) :
  (forall author, author_of b = Return author ->
     ~ inside (book_folder output_dir (title_of b) author) p) ->
  files (snd (download_book net b output_dir w)) !! p = files w !! p.
Proof.
  intros Hout.
  destruct (author_of_cases b) as [[author Hauthor]|Hauthor].
  2:{ now rewrite (download_book_raises_early net b output_dir w IndexError)
        by now left. }
  destruct (language_of_cases b) as [[language Hlanguage]|Hlanguage].
  2:{ now rewrite (download_book_raises_early net b output_dir w IndexError)
        by (right; eauto). }
  destruct (Py.truthy (download_url_of b)) eqn:Htruthy.
  2:{ now rewrite (no_format_is_skipped net b output_dir author language w). }
  destruct (download_url_of b) as [[|c u]|] eqn:Hurl; try discriminate Htruthy.
  rewrite (download_book_reaches_body net b output_dir author language c u w)
    by assumption.
  unfold IO.try_except.
  destruct (fetch_error net (clock w) (String c u)) as [e|] eqn:Hfetch.
  - now rewrite (download_body_failure _ _ _ _ _ _ _ e) by exact Hfetch.
  - apply fetch_error_none in Hfetch as (r & Hnet & Hstatus).
    destruct (download_body_success net b output_dir (title_of b) author language
                (String c u) w r Hnet Hstatus) as (w' & Hbody & _).
    rewrite Hbody. cbn [snd].
    destruct (download_body_files _ _ _ _ _ _ _ _ _ _ Hnet Hstatus Hbody)
      as [_ Hframe].
    apply Hframe, Hout, Hauthor.
Qed.

Lemma writes_stay_inside_book_folder_witness :
  let net : network := fun _ _ => Responded (Response 200 "Text" "PNG" (Return []) "OK" "") in
  let b := Book (Some "../../etc") (Some [Author (Some "/root")]) (Some ["en"])
                (Some [("text/plain", "https://example.org/1.txt");
                       ("image/png", "https://example.org/1.png")]) in
  let w := World ∅ {["/etc/passwd" := TextFile "root"]} [] 0 in
  files (snd (download_book net b "output" w)) !! "/etc/passwd"
  = Some (TextFile "root").
Proof.
  intros net b w.
  apply (writes_stay_inside_book_folder net b "output" w "/etc/passwd").
  intros author [= <-] [rest Hin]. discriminate Hin.
Defined.

(** X7: the requests one call issues.  None for a record without a
    usable text URL or stopped at lines 51-52; one when the fetch of the
    text fails; otherwise one for the text and one per image URL, failed
    image fetches included. *)
Theorem requests_per_book (net : network) (b : book) (output_dir : string) (w : world) :
  let w' := snd (download_book net b output_dir w) in
  (Py.truthy (download_url_of b) = false -> clock w' = clock w) /\
  (forall e, author_of b = Raise e \/ language_of b = Raise e -> clock w' = clock w) /\
  (forall author language c u,
     author_of b = Return author ->
     language_of b = Return language ->
     download_url_of b = Some (String c u) ->
     clock w'
     = match fetch_error net (clock w) (String c u) with
       | Some _ => S (clock w)
       | None => (S (clock w) + length (image_urls_of b))%nat
       end).
Proof.
  cbv zeta. split; [|split].
  - intros Htruthy. unfold download_book, IO.bind, IO.lift.
    destruct (author_of b); try reflexivity.
    destruct (language_of b); try reflexivity.
    now rewrite Htruthy.
  - intros e [H|H]; unfold download_book, IO.bind, IO.lift.
    + now rewrite H.
    + destruct (author_of b); try reflexivity. now rewrite H.
  - intros author language c u Hauthor Hlanguage Hurl.
    destruct (fetch_error net (clock w) (String c u)) as [e|] eqn:Hfetch.
    + rewrite (download_book_reaches_body net b output_dir author language c u w)
        by assumption.
      unfold IO.try_except.
      now rewrite (download_body_failure _ _ _ _ _ _ _ e) by exact Hfetch.
    + apply fetch_error_none in Hfetch as (r & Hnet & Hstatus).
      destruct (download_book_success net b output_dir author language (String c u) w r)
        as (w' & Hrun & Hdone); try assumption; [discriminate|].
      rewrite Hrun. apply (dl_clock _ _ _ _ _ _ _ _ _ _ Hdone).
Qed.

Lemma requests_per_book_witness :
  let net : network := fun k _ =>
    if Nat.eqb k 0 then Responded (Response 200 "Text" "" (Return []) "OK" "")
    else Failed "timed out" in
  let b := Book (Some "Emma") (Some [Author (Some "Austen")]) (Some ["en"])
                (Some [("text/plain", "https://example.org/158.txt");
                       ("image/jpeg", "https://example.org/158.jpg");
                       ("image/png", "https://example.org/158.png")]) in
  let skipped := Book (Some "Emma") None None (Some [("text/plain", "")]) in
  clock (snd (download_book net b "output" (World ∅ ∅ [] 0))) = 3%nat /\
  clock (snd (download_book net b "output" (World ∅ ∅ [] 5))) = 6%nat /\
  clock (snd (download_book net skipped "output" (World ∅ ∅ [] 0))) = 0%nat /\
  clock (snd (download_book net (Book None (Some []) None None) "output"
                (World ∅ ∅ [] 0))) = 0%nat.
Proof.
  intros net b skipped. split; [|split; [|split]].
  - exact (proj2 (proj2 (requests_per_book net b "output" (World ∅ ∅ [] 0)))
             "Austen" "en" "h"%char "ttps://example.org/158.txt"
             eq_refl eq_refl eq_refl).
  - exact (proj2 (proj2 (requests_per_book net b "output" (World ∅ ∅ [] 5)))
             "Austen" "en" "h"%char "ttps://example.org/158.txt"
             eq_refl eq_refl eq_refl).
  - exact (proj1 (requests_per_book net skipped "output" (World ∅ ∅ [] 0)) eq_refl).
  - exact (proj1 (proj2 (requests_per_book net (Book None (Some []) None None)
                           "output" (World ∅ ∅ [] 0)))
             IndexError (or_introl eq_refl)).
Defined.

(** X8: two records whose titles agree on their first ten characters
    and that have the same first author are written to the same
    folder and the same content file: downloading the second replaces
    the text the first left there. *)
Theorem same_prefix_records_collide (net : network) (b1 b2 : book)
    (output_dir author language1 language2 url1 url2 : string) (w : world)
    (r1 r2 : response) :
  Py.take 10 (raw_title b1) = Py.take 10 (raw_title b2) ->
  author_of b1 = Return author -> author_of b2 = Return author ->
  language_of b1 = Return language1 -> language_of b2 = Return language2 ->
  download_url_of b1 = Some url1 -> url1 <> "" ->
  download_url_of b2 = Some url2 -> url2 <> "" ->
  net (clock w) (Request url1 []) = Responded r1 ->
  is_error_status (status_code r1) = false ->
  net (S (clock w) + length (image_urls_of b1))%nat (Request url2 []) = Responded r2 ->
  is_error_status (status_code r2) = false ->
  exists w1 w2,
    download_book net b1 output_dir w = (Return tt, w1) /\
    download_book net b2 output_dir w1 = (Return tt, w2) /\
    book_folder output_dir (title_of b1) author
      = book_folder output_dir (title_of b2) author /\
    files w1 !! content_path output_dir (title_of b1) author
      = Some (TextFile (text r1)) /\
    files w2 !! content_path output_dir (title_of b1) author
      = Some (TextFile (text r2)).
Proof.
  intros Hsame Ha1 Ha2 Hl1 Hl2 Hu1 Hne1 Hu2 Hne2 Hnet1 Hs1 Hnet2 Hs2.
  assert (Htitle : title_of b1 = title_of b2).
  { unfold title_of. fold (raw_title b1) (raw_title b2).
    now rewrite !replace_char_take, Hsame. }
  destruct (download_book_success net b1 output_dir author language1 url1 w r1)
    as (w1 & Hrun1 & Hdone1); try assumption.
  rewrite <- (dl_clock _ _ _ _ _ _ _ _ _ _ Hdone1) in Hnet2.
  destruct (download_book_success net b2 output_dir author language2 url2 w1 r2)
    as (w2 & Hrun2 & Hdone2); try assumption.
  exists w1, w2. split; [exact Hrun1|]. split; [exact Hrun2|].
  split; [now rewrite Htitle|].
  split; [apply (dl_content _ _ _ _ _ _ _ _ _ _ Hdone1)|].
  rewrite Htitle. apply (dl_content _ _ _ _ _ _ _ _ _ _ Hdone2).
Qed.

Lemma same_prefix_records_collide_witness :
  let net : network := fun k _ =>
    Responded (Response 200 (if Nat.eqb k 0 then "Bản Nôm" else "Bản quốc ngữ")
                        "" (Return []) "OK" "") in
  let b1 := Book (Some "Truyện Kiều (bản Nôm 1866)")
                 (Some [Author (Some "Nguyễn Du")]) (Some ["vi"])
                 (Some [("text/plain", "https://example.org/1.txt")]) in
  let b2 := Book (Some "Truyện Kiều của Nguyễn Du")
                 (Some [Author (Some "Nguyễn Du")]) (Some ["vi"])
                 (Some [("text/plain", "https://example.org/2.txt")]) in
  exists w1 w2,
    download_book net b1 "output" (World ∅ ∅ [] 0) = (Return tt, w1) /\
    download_book net b2 "output" w1 = (Return tt, w2) /\
    files w1 !! "output/Truyện Kiề - Nguyễn Du/Truyện Kiề-Nguyễn Du.html"
      = Some (TextFile "Bản Nôm") /\
    files w2 !! "output/Truyện Kiề - Nguyễn Du/Truyện Kiề-Nguyễn Du.html"
      = Some (TextFile "Bản quốc ngữ").
Proof.
  intros net b1 b2.
  destruct (same_prefix_records_collide net b1 b2 "output" "Nguyễn Du" "vi" "vi"
              "https://example.org/1.txt" "https://example.org/2.txt"
              (World ∅ ∅ [] 0)
              (Response 200 "Bản Nôm" "" (Return []) "OK" "")
              (Response 200 "Bản quốc ngữ" "" (Return []) "OK" "")
              ltac:(vm_compute; reflexivity) eq_refl eq_refl eq_refl eq_refl
              eq_refl ltac:(discriminate) eq_refl ltac:(discriminate)
              eq_refl eq_refl eq_refl eq_refl)
    as (w1 & w2 & Hrun1 & Hrun2 & _ & Hfile1 & Hfile2).
  exists w1, w2. split; [exact Hrun1|]. split; [exact Hrun2|].
  split; [exact Hfile1|exact Hfile2].
Defined.

(** X9: which text is fetched.  When [formats] has a non-empty
    [text/plain] entry, that URL is the one fetched and recorded, also
    when a [text/html] entry exists; when [text/plain] is absent or
    empty, the [text/html] URL is used instead. *)
Theorem text_plain_is_preferred (net : network) (b : book)
    (output_dir author language url : string) (w : world) (r : response) :
  author_of b = Return author ->
  language_of b = Return language ->
  url <> "" ->
  let formats := Py.get_default (b_formats b) [] in
  (Py.dict_get formats "text/plain" = Some url \/
   (Py.truthy (Py.dict_get formats "text/plain") = false /\
    Py.dict_get formats "text/html" = Some url)) ->
  net (clock w) (Request url []) = Responded r ->
  is_error_status (status_code r) = false ->
  exists w' md,
    download_book net b output_dir w = (Return tt, w') /\
    files w' !! metadata_path output_dir (title_of b) author = Some (MetadataFile md) /\
    md_download_url md = url /\
    files w' !! content_path output_dir (title_of b) author = Some (TextFile (text r)).
Proof.
  intros Hauthor Hlanguage Hne formats Hformats Hnet Hstatus.
  assert (Hurl : download_url_of b = Some url).
  { unfold download_url_of, Py.or_else. fold formats.
    destruct Hformats as [Hplain|[Hplain Hhtml]].
    - rewrite Hplain. destruct url; [contradiction|reflexivity].
    - now rewrite Hplain. }
  destruct (download_book_success net b output_dir author language url w r)
    as (w' & Hrun & Hdone); try assumption.
  exists w'. eexists. split; [exact Hrun|].
  split; [apply (dl_metadata _ _ _ _ _ _ _ _ _ _ Hdone)|].
  split; [reflexivity|apply (dl_content _ _ _ _ _ _ _ _ _ _ Hdone)].
Qed.

Lemma text_plain_is_preferred_witness :
  let net : network := fun _ rq =>
    Responded (Response 200 (rq_url rq) "" (Return []) "OK" "") in
  let both := Book (Some "Emma") (Some [Author (Some "Austen")]) (Some ["en"])
                   (Some [("text/html", "https://example.org/158.html");
                          ("text/plain", "https://example.org/158.txt")]) in
  let blank := Book (Some "Emma") (Some [Author (Some "Austen")]) (Some ["en"])
                    (Some [("text/plain", "");
                           ("text/html", "https://example.org/158.html")]) in
  (exists w' md,
     download_book net both "output" (World ∅ ∅ [] 0) = (Return tt, w') /\
     files w' !! metadata_path "output" (title_of both) "Austen"
       = Some (MetadataFile md) /\
     md_download_url md = "https://example.org/158.txt" /\
     files w' !! content_path "output" (title_of both) "Austen"
       = Some (TextFile "https://example.org/158.txt")) /\
  (exists w' md,
     download_book net blank "output" (World ∅ ∅ [] 0) = (Return tt, w') /\
     files w' !! metadata_path "output" (title_of blank) "Austen"
       = Some (MetadataFile md) /\
     md_download_url md = "https://example.org/158.html" /\
     files w' !! content_path "output" (title_of blank) "Austen"
       = Some (TextFile "https://example.org/158.html")).
Proof.
  intros net both blank. split.
  - exact (text_plain_is_preferred net both "output" "Austen" "en"
             "https://example.org/158.txt" (World ∅ ∅ [] 0)
             (Response 200 "https://example.org/158.txt" "" (Return []) "OK" "")
             eq_refl eq_refl ltac:(discriminate) (or_introl eq_refl) eq_refl eq_refl).
  - exact (text_plain_is_preferred net blank "output" "Austen" "en"
             "https://example.org/158.html" (World ∅ ∅ [] 0)
             (Response 200 "https://example.org/158.html" "" (Return []) "OK" "")
             eq_refl eq_refl ltac:(discriminate)
             (or_intror (conj eq_refl eq_refl)) eq_refl eq_refl).
Defined.

(** ** fetch_books and main *)

Lemma fetch_books_leaves_world (net : network) (language : string) (limit : Z)
    (search_keyword : string) (w : world) :
  let run := fetch_books net language limit search_keyword w in
  dirs (snd run) = dirs w /\
  files (snd run) = files w /\
  clock (snd run) = S (clock w) /\
  (stdout (snd run) = stdout w \/
   exists e, fst run = Return (JBooks []) /\
             stdout (snd run) = stdout w ++ ["Error fetching data: " +:+ e]).
Proof.
  cbv zeta.
  unfold fetch_books, IO.try_except, IO.bind, IO.requests_get, IO.lift,
    raise_for_status, dict_item, IO.print, IO.ret.
  destruct (net (clock w) _) as [msg|r]; cbn.
  { repeat split. right. now eexists. }
  destruct (is_error_status (status_code r)); cbn.
  { repeat split. right. now eexists. }
  destruct (json r) as [body|e|]; cbn.
  - destruct (Py.dict_get body "results"); cbn; repeat split; now left.
  - destruct e; cbn; repeat split; try (now left). right. now eexists.
  - repeat split; now left.
Qed.

(** X10: whatever the network answers, [fetch_books] issues exactly one
    request and leaves directories and files alone.  When its [try]
    catches a failure it returns the empty list and prints exactly one
    line, which carries the message of the failure; otherwise it prints
    nothing. *)
Theorem fetch_books_effects (net : network) (language : string) (limit : Z)
    (search_keyword : string) (w : world) :
  let run := fetch_books net language limit search_keyword w in
  dirs (snd run) = dirs w /\
  files (snd run) = files w /\
  clock (snd run) = S (clock w) /\
  match fetch_failure net (clock w)
          (catalogue_request language limit search_keyword) with
  | Some e =>
      fst run = Return (JBooks []) /\
      stdout (snd run) = stdout w ++ ["Error fetching data: " +:+ e]
  | None => stdout (snd run) = stdout w
  end.
Proof.
  cbv zeta.
  unfold fetch_failure, fetch_books, catalogue_request, IO.try_except, IO.bind,
    IO.requests_get, IO.lift, raise_for_status, dict_item, IO.print, IO.ret.
  destruct (net (clock w) _) as [msg|r]; cbn; [repeat split|].
  destruct (is_error_status (status_code r)); cbn; [repeat split|].
  destruct (json r) as [body|e|]; cbn.
  - destruct (Py.dict_get body "results"); cbn; repeat split.
  - destruct e; cbn; repeat split.
  - repeat split.
Qed.

(** X11: a body that does not parse.  [response.json()] is called
    inside the [try]: when it raises a [RequestException] (as the JSON
    error of recent [requests] is) the failure is caught, logged and
    answered with the empty list; any other exception it raises
    reaches the caller. *)
Theorem fetch_books_unparsable_body (net : network) (language : string) (limit : Z)
    (search_keyword : string) (w : world) (r : response) :
  net (clock w) (catalogue_request language limit search_keyword) = Responded r ->
  is_error_status (status_code r) = false ->
  let run := fetch_books net language limit search_keyword w in
  (forall msg, json r = Raise (RequestException msg) ->
     fst run = Return (JBooks []) /\
     stdout (snd run) = stdout w ++ ["Error fetching data: " +:+ msg]) /\
  (forall e, json r = Raise e -> (forall msg, e <> RequestException msg) ->
     fst run = Raise e /\ stdout (snd run) = stdout w).
Proof.
  intros Hnet Hstatus. cbv zeta.
  unfold fetch_books, catalogue_request, IO.try_except, IO.bind, IO.requests_get,
    IO.lift, raise_for_status, dict_item, IO.print, IO.ret in *.
  rewrite Hnet, Hstatus. split.
  - intros msg Hjson. rewrite Hjson. split; reflexivity.
  - intros e Hjson Hother. rewrite Hjson.
    destruct e; try (split; reflexivity). now destruct (Hother msg).
Qed.

Lemma fetch_books_unparsable_body_witness :
  let page json := Response 200 "<html>Bad gateway</html>" "" json "OK" "" in
  let recent : network := fun _ _ =>
    Responded (page (Raise (RequestException "Expecting value"))) in
  let old : network := fun _ _ =>
    Responded (page (Raise (ValueError "Expecting value"))) in
  fst (fetch_books recent "en" 10 "" (World ∅ ∅ [] 0)) = Return (JBooks []) /\
  fst (fetch_books old "en" 10 "" (World ∅ ∅ [] 0))
    = Raise (ValueError "Expecting value").
Proof.
  intros page recent old. split.
  - exact (proj1 (proj1 (fetch_books_unparsable_body recent "en" 10 "" (World ∅ ∅ [] 0)
                           (page (Raise (RequestException "Expecting value")))
                           eq_refl eq_refl)
                        "Expecting value" eq_refl)).
  - exact (proj1 (proj2 (fetch_books_unparsable_body old "en" 10 "" (World ∅ ∅ [] 0)
                           (page (Raise (ValueError "Expecting value")))
                           eq_refl eq_refl)
                        (ValueError "Expecting value") eq_refl
                        ltac:(discriminate))).
Defined.

Section MainLoop.

Lemma fetch_books_same_clock (net : network) (language : string) (limit : Z)
    (search_keyword : string) (w1 w2 : world) :
  clock w1 = clock w2 ->
  fst (fetch_books net language limit search_keyword w1)
  = fst (fetch_books net language limit search_keyword w2).
Proof.
  intros Hclock.
  unfold fetch_books, IO.try_except, IO.bind, IO.requests_get, IO.lift,
    raise_for_status, dict_item, IO.print, IO.ret.
  rewrite Hclock.
  destruct (net (clock w2) _) as [msg|r]; cbn; [reflexivity|].
  destruct (is_error_status (status_code r)); cbn; [reflexivity|].
  destruct (json r) as [body|e|]; cbn; [|destruct e|]; try reflexivity.
  destruct (Py.dict_get body "results"); reflexivity.
Qed.

Lemma main_loop_readable (net : network) (output : string) (books : list book)
    (s : run_state) :
  Forall readable books ->
  exists w',
    main_loop net output books s
    = (Completed, RunState w' (rs_slept s + 2 * Z.of_nat (length books))).
Proof.
  revert s. induction books as [|b books IH]; intros s Hall.
  - exists (rs_world s). destruct s as [w z]. cbn. f_equal. f_equal. lia.
  - inversion Hall as [|? ? (author & language & Hauthor & Hlanguage) Hrest]; subst.
    cbn [main_loop].
    pose proof (download_book_returns net b output author language (rs_world s)
                  Hauthor Hlanguage) as Hret.
    destruct (download_book net b output (rs_world s)) as [o w1]. cbn in Hret. subst o.
    destruct (IH (RunState w1 (rs_slept s + 2)) Hrest) as [w' Hrun].
    exists w'. rewrite Hrun. cbn [rs_slept length]. f_equal. f_equal. lia.
Qed.

Lemma main_loop_stops (net : network) (output : string) (good rest : list book)
    (bad : book) (e : exn) (s : run_state) :
  Forall readable good ->
  author_of bad = Raise e \/
  (exists author, author_of bad = Return author /\ language_of bad = Raise e) ->
  exists w',
    main_loop net output good s
      = (Completed, RunState w' (rs_slept s + 2 * Z.of_nat (length good))) /\
    main_loop net output (good ++ bad :: rest) s
      = (Crashed e, RunState w' (rs_slept s + 2 * Z.of_nat (length good))).
Proof.
  intros Hall Hbad. revert s. induction good as [|b good IH]; intros s.
  - exists (rs_world s). cbn [main_loop app length].
    rewrite (download_book_raises_early net bad output (rs_world s) e Hbad).
    destruct s as [w z]. cbn [rs_world rs_slept].
    replace (z + 2 * Z.of_nat 0) with z by lia. split; reflexivity.
  - inversion Hall as [|? ? (author & language & Hauthor & Hlanguage) Hrest]; subst.
    cbn [main_loop app].
    pose proof (download_book_returns net b output author language (rs_world s)
                  Hauthor Hlanguage) as Hret.
    destruct (download_book net b output (rs_world s)) as [o w1]. cbn in Hret. subst o.
    destruct (IH Hrest (RunState w1 (rs_slept s + 2))) as (w' & Hgood & Hstop).
    exists w'. rewrite Hgood, Hstop. cbn [rs_slept length].
    replace (rs_slept s + 2 + 2 * Z.of_nat (length good))
      with (rs_slept s + 2 * Z.of_nat (S (length good))) by lia.
    split; reflexivity.
Qed.

End MainLoop.

Section Main.

Lemma main_after_fetch (net : network) (args : arguments) (w : world) :
  exists w2,
    fetch_books net (arg_lang args) (arg_limit args) (arg_search args)
                (snd (IO.makedirs (arg_output args) w))
    = (fst (fetch_books net (arg_lang args) (arg_limit args) (arg_search args) w), w2) /\
    arg_output args ∈ dirs w2 /\ files w2 = files w /\ clock w2 = S (clock w).
Proof.
  pose proof (fetch_books_leaves_world net (arg_lang args) (arg_limit args)
                (arg_search args) (snd (IO.makedirs (arg_output args) w)))
    as (Hdirs & Hfiles & Hclock & _).
  cbv zeta in *.
  pose proof (fetch_books_same_clock net (arg_lang args) (arg_limit args)
                (arg_search args) (snd (IO.makedirs (arg_output args) w)) w eq_refl)
    as Hfst.
  destruct (fetch_books net (arg_lang args) (arg_limit args) (arg_search args)
              (snd (IO.makedirs (arg_output args) w))) as [o w2].
  cbn [fst snd] in *. exists w2. rewrite Hfst. split; [reflexivity|].
  split; [|split; assumption].
  rewrite Hdirs. apply makedirs_creates.
Qed.

End Main.

(** X12: a catalogue without records.  When [fetch_books] returns the
    empty list, be it the answer of the catalogue or the result of a
    caught failure, [main] has created the output directory, issued
    the one request, written no file, slept not at all, and ends
    normally. *)
Theorem main_without_records (net : network) (args : arguments) (w : world) :
  fst (fetch_books net (arg_lang args) (arg_limit args) (arg_search args) w)
    = Return (JBooks []) ->
  exists w',
    main net args w = (Completed, RunState w' 0) /\
    arg_output args ∈ dirs w' /\ files w' = files w /\ clock w' = S (clock w).
Proof.
  intros Hempty.
  destruct (main_after_fetch net args w) as (w2 & Hfetch & Hdir & Hfiles & Hclock).
  exists w2. unfold main. rewrite Hfetch, Hempty. cbn [main_loop].
  repeat split; assumption.
Qed.

Lemma main_without_records_witness :
  let down : network := fun _ _ => Failed "Name or service not known" in
  exists w',
    main down default_arguments (World ∅ ∅ [] 0) = (Completed, RunState w' 0) /\
    "output" ∈ dirs w' /\ files w' = ∅ /\ clock w' = 1%nat.
Proof.
  intros down.
  exact (main_without_records down default_arguments (World ∅ ∅ [] 0) eq_refl).
Defined.

Lemma main_loop_in_order (net : network) (output : string) (books : list book)
    (s : run_state) :
  Forall readable books ->
  main_loop net output books s
  = (Completed,
     RunState (downloads_in_order net output books (rs_world s))
              (rs_slept s + 2 * Z.of_nat (length books))).
Proof.
  unfold downloads_in_order.
  revert s. induction books as [|b books IH]; intros s Hall.
  - destruct s as [w z]. cbn. f_equal. f_equal. lia.
  - inversion Hall as [|? ? (author & language & Hauthor & Hlanguage) Hrest]; subst.
    cbn [main_loop fold_left].
    pose proof (download_book_returns net b output author language (rs_world s)
                  Hauthor Hlanguage) as Hret.
    destruct (download_book net b output (rs_world s)) as [o w1]. cbn in Hret. subst o.
    rewrite (IH (RunState w1 (rs_slept s + 2)) Hrest).
    cbn [rs_world rs_slept length snd]. f_equal. f_equal. lia.
Qed.

(** X13: [main] calls [download_book] on the records in the order
    received, each call starting from the world the one before left,
    and sleeps two seconds after each of them, the last included: when
    every record gets past lines 51-52 the run ends normally, in the
    world those calls lead to from the one after the catalogue request,
    having slept twice as many seconds as there are records. *)
Theorem main_sleeps_after_every_record (net : network) (args : arguments) (w : world)
    (books : list book) :
  fst (fetch_books net (arg_lang args) (arg_limit args) (arg_search args) w)
    = Return (JBooks books) ->
  Forall readable books ->
  let fetched :=
    snd (fetch_books net (arg_lang args) (arg_limit args) (arg_search args)
           (snd (IO.makedirs (arg_output args) w))) in
  main net args w
  = (Completed,
     RunState
       (fold_left (fun w b => snd (download_book net b (arg_output args) w))
                  books fetched)
       (2 * Z.of_nat (length books))).
Proof.
  intros Hbooks Hall fetched. subst fetched.
  destruct (main_after_fetch net args w) as (w2 & Hfetch & _).
  unfold main. rewrite Hfetch, Hbooks. cbn [snd].
  now rewrite (main_loop_in_order net (arg_output args) books (RunState w2 0) Hall).
Qed.

Lemma main_sleeps_after_every_record_witness :
  let first := Book (Some "Emma") (Some [Author (Some "Austen")]) (Some ["en"]) None in
  let second := Book None None None (Some [("text/plain", "https://example.org/2.txt")]) in
  let net : network := fun k _ =>
    if Nat.eqb k 0
    then Responded (Response 200 "" "" (Return [("results", JBooks [first; second])])
                             "OK" "")
    else Failed "timed out" in
  exists w',
    main net default_arguments (World ∅ ∅ [] 0) = (Completed, RunState w' 4) /\
    stdout w' = ["No downloadable format found for Emma by Austen";
                 "Error downloading Unknown Ti by Unknown Author: timed out"].
Proof.
  intros first second net. eexists. split.
  - refine (main_sleeps_after_every_record net default_arguments (World ∅ ∅ [] 0)
              [first; second] eq_refl _).
    repeat constructor; do 2 eexists; split; reflexivity.
  - vm_compute. reflexivity.
Defined.

(** X14: the first record that fails at lines 51-52 ends the run:
    [main] stops with that exception, the records before it have been
    handled and slept after, and the records after it are never
    looked at. *)
Theorem main_stops_at_unreadable_record (net : network) (args : arguments) (w : world)
    (good rest : list book) (bad : book) (e : exn) :
  fst (fetch_books net (arg_lang args) (arg_limit args) (arg_search args) w)
    = Return (JBooks (good ++ bad :: rest)) ->
  Forall readable good ->
  author_of bad = Raise e \/
  (exists author, author_of bad = Return author /\ language_of bad = Raise e) ->
  let start :=
    RunState (snd (fetch_books net (arg_lang args) (arg_limit args) (arg_search args)
                     (snd (IO.makedirs (arg_output args) w)))) 0 in
  exists w',
    main_loop net (arg_output args) good start
      = (Completed, RunState w' (2 * Z.of_nat (length good))) /\
    main net args w = (Crashed e, RunState w' (2 * Z.of_nat (length good))).
Proof.
  intros Hbooks Hall Hbad start. subst start.
  destruct (main_after_fetch net args w) as (w2 & Hfetch & _).
  unfold main. rewrite Hfetch, Hbooks. cbn [snd].
  destruct (main_loop_stops net (arg_output args) good rest bad e (RunState w2 0)
              Hall Hbad) as (w' & Hgood & Hstop).
  exists w'. rewrite Hgood, Hstop. split; reflexivity.
Qed.

Lemma main_stops_at_unreadable_record_witness :
  let first := Book (Some "Emma") (Some [Author (Some "Austen")]) (Some ["en"]) None in
  let anonymous := Book (Some "Beowulf") (Some []) (Some ["en"])
                        (Some [("text/plain", "https://example.org/16328.txt")]) in
  let last := Book (Some "Ulysses") (Some [Author (Some "Joyce")]) (Some ["en"])
                   (Some [("text/plain", "https://example.org/4300.txt")]) in
  let net : network := fun _ _ =>
    Responded (Response 200 "" ""
                 (Return [("results", JBooks [first; anonymous; last])]) "OK" "") in
  exists w',
    main net default_arguments (World ∅ ∅ [] 0) = (Crashed IndexError, RunState w' 2).
Proof.
  intros first anonymous last net.
  destruct (main_stops_at_unreadable_record net default_arguments (World ∅ ∅ [] 0)
              [first] [last] anonymous IndexError eq_refl)
    as (w' & _ & Hrun).
  - repeat constructor. do 2 eexists. split; reflexivity.
  - left. reflexivity.
  - exists w'. exact Hrun.
Defined.

(** X15: an answer without the [results] key ends [main] with the
    [KeyError] of [fetch_books]; by then the output directory has been
    created, and nothing else has been written. *)
Theorem main_missing_results (net : network) (args : arguments) (w : world)
    (r : response) (body : list (string * json_value)) :
  net (clock w) (catalogue_request (arg_lang args) (arg_limit args) (arg_search args))
    = Responded r ->
  is_error_status (status_code r) = false ->
  json r = Return body ->
  Py.dict_get body "results" = None ->
  exists w',
    main net args w = (Crashed (KeyError "results"), RunState w' 0) /\
    arg_output args ∈ dirs w' /\ files w' = files w /\ stdout w' = stdout w.
Proof.
  intros Hnet Hstatus Hjson Hkey. unfold main.
  unfold fetch_books, catalogue_request, IO.try_except, IO.bind, IO.requests_get,
    IO.lift, raise_for_status, dict_item in *.
  cbn [snd IO.makedirs clock].
  rewrite Hnet, Hstatus, Hjson, Hkey. cbn.
  eexists. split; [reflexivity|]. cbn [dirs files stdout].
  split; [|split; reflexivity].
  apply (makedirs_creates (arg_output args) w).
Qed.

Lemma main_missing_results_witness :
  let answer := Response 200 "" "" (Return [("detail", JString "Not found.")]) "OK" "" in
  let net : network := fun _ _ => Responded answer in
  exists w',
    main net default_arguments (World ∅ ∅ [] 0)
      = (Crashed (KeyError "results"), RunState w' 0) /\
    "output" ∈ dirs w' /\ files w' = ∅ /\ stdout w' = [].
Proof.
  intros answer net.
  exact (main_missing_results net default_arguments (World ∅ ∅ [] 0) answer
           [("detail", JString "Not found.")] eq_refl eq_refl eq_refl eq_refl).
Defined.

(** ** download_book: outcomes and layout *)

Section Outcomes.

Lemma author_of_raises (b : book) :
  author_of b = Raise IndexError <-> b_authors b = Some [].
Proof.
  unfold author_of, getitem, Py.get_default.
  destruct (b_authors b) as [[|first rest]|]; cbn; split; intros H;
    try discriminate H; reflexivity.
Qed.

Lemma language_of_raises (b : book) :
  language_of b = Raise IndexError <-> b_languages b = Some [].
Proof.
  unfold language_of, getitem, Py.get_default.
  destruct (b_languages b) as [[|first rest]|]; cbn; split; intros H;
    try discriminate H; reflexivity.
Qed.

End Outcomes.

(** X16: when [download_book] raises.  With directory creation and
    file writes taken to succeed, the call either returns or raises
    [IndexError]; it raises exactly when the record's [authors] or
    [languages] is present and empty, and then it has changed nothing
    and printed nothing. *)
Theorem download_book_raises_exactly_on_empty_lists (net : network) (b : book)
    (output_dir : string) (w : world) :
  let run := download_book net b output_dir w in
  (fst run = Return tt \/ fst run = Raise IndexError) /\
  (fst run = Raise IndexError <-> b_authors b = Some [] \/ b_languages b = Some []) /\
  (fst run = Raise IndexError -> snd run = w).
Proof.
  cbv zeta.
  destruct (author_of_cases b) as [[author Hauthor]|Hauthor].
  2:{ rewrite (download_book_raises_early net b output_dir w IndexError) by now left.
      cbn. split; [now right|]. split; [|reflexivity].
      split; [intros _; left; now apply author_of_raises|reflexivity]. }
  destruct (language_of_cases b) as [[language Hlanguage]|Hlanguage].
  2:{ rewrite (download_book_raises_early net b output_dir w IndexError)
        by (right; eauto).
      cbn. split; [now right|]. split; [|reflexivity].
      split; [intros _; right; now apply language_of_raises|reflexivity]. }
  rewrite (download_book_returns net b output_dir author language w Hauthor Hlanguage).
  split; [now left|]. split; [|discriminate].
  split; [discriminate|].
  intros [H|H].
  - apply author_of_raises in H. congruence.
  - apply language_of_raises in H. congruence.
Qed.

Lemma download_book_raises_exactly_on_empty_lists_witness :
  let net : network := fun _ _ => Failed "unreachable" in
  let anonymous := Book (Some "Beowulf") (Some []) (Some ["en"])
                        (Some [("text/plain", "https://example.org/16328.txt")]) in
  let w := World {["output"]} ∅ [] 0 in
  fst (download_book net anonymous "output" w) = Raise IndexError /\
  snd (download_book net anonymous "output" w) = w.
Proof.
  intros net anonymous w.
  destruct (download_book_raises_exactly_on_empty_lists net anonymous "output" w)
    as (_ & Hiff & Hsame).
  assert (Hraise : fst (download_book net anonymous "output" w) = Raise IndexError)
    by (apply Hiff; left; reflexivity).
  split; [exact Hraise|exact (Hsame Hraise)].
Defined.

(** X17: the folders of a completed download: the book folder, its
    [images] folder whether or not the record has an image, and one
    chapter folder per segment of the split, [Chapter_I] always among
    them. *)
Theorem completed_download_layout (net : network) (b : book)
    (output_dir author language download_url : string) (w : world) (r : response) :
  author_of b = Return author ->
  language_of b = Return language ->
  download_url_of b = Some download_url ->
  download_url <> "" ->
  net (clock w) (Request download_url []) = Responded r ->
  is_error_status (status_code r) = false ->
  let folder := book_folder output_dir (title_of b) author in
  exists w',
    download_book net b output_dir w = (Return tt, w') /\
    folder ∈ dirs w' /\
    folder +:+ "/images" ∈ dirs w' /\
    folder +:+ "/Chapter_I" ∈ dirs w' /\
    (forall j, (j < length (Re.split chapter_regex (text r)))%nat ->
       folder +:+ "/Chapter_" +:+ Roman.roman (Z.of_nat j + 1) ∈ dirs w').
Proof.
  intros Hauthor Hlanguage Hurl Hne Hnet Hstatus folder.
  destruct (download_book_success net b output_dir author language download_url w r)
    as (w' & Hrun & Hdone); try assumption.
  assert (Hchapters : forall j, (j < length (Re.split chapter_regex (text r)))%nat ->
            folder +:+ "/Chapter_" +:+ Roman.roman (Z.of_nat j + 1) ∈ dirs w').
  { intros j Hj. apply lookup_lt_is_Some in Hj as [seg Hseg].
    pose proof (dl_chapter_folders _ _ _ _ _ _ _ _ _ _ Hdone j seg Hseg) as Hin.
    now rewrite under_book_folder in Hin by reflexivity. }
  exists w'. split; [exact Hrun|]. split; [apply (dl_folder _ _ _ _ _ _ _ _ _ _ Hdone)|].
  split; [|split; [|exact Hchapters]].
  - pose proof (dl_images_folder _ _ _ _ _ _ _ _ _ _ Hdone) as Hin.
    unfold images_folder in Hin. now rewrite under_book_folder in Hin by reflexivity.
  - apply (Hchapters 0%nat).
    pose proof (split_from_length chapter_regex (text r) 0 "") as Hlen.
    exact Hlen.
Qed.

Lemma completed_download_layout_witness :
  let net : network := fun _ _ => Responded (Response 200 "Text" "" (Return []) "OK" "") in
  let b := Book (Some "Emma") (Some [Author (Some "Austen")]) (Some ["en"])
                (Some [("text/html", "https://example.org/158.html")]) in
  exists w',
    download_book net b "output" (World ∅ ∅ [] 0) = (Return tt, w') /\
    "output/Emma - Austen" ∈ dirs w' /\
    "output/Emma - Austen/images" ∈ dirs w' /\
    "output/Emma - Austen/Chapter_I" ∈ dirs w'.
Proof.
  intros net b.
  destruct (completed_download_layout net b "output" "Austen" "en"
              "https://example.org/158.html" (World ∅ ∅ [] 0)
              (Response 200 "Text" "" (Return []) "OK" "")
              eq_refl eq_refl eq_refl ltac:(discriminate) eq_refl eq_refl)
    as (w' & Hrun & Hfolder & Himages & Hfirst & _).
  exists w'. split; [exact Hrun|]. split; [exact Hfolder|].
  split; [exact Himages|exact Hfirst].
Defined.
